(** * rename_images_to_timestamps: a shallow embedding and its properties

    The development follows [rename_images_to_timestamps.py] function by
    function.  Python strings are modelled as Rocq strings (sequences of
    8-bit characters, so file names are taken to be ASCII); Python's
    unbounded integers as [N]; dictionaries as [gmap string string]; the
    file system as a finite map from path strings to byte contents together
    with the set of path strings that name a directory (POSIX path
    conventions, no two path strings naming the same file, and no path that
    the script probes naming a directory); exceptions as an error outcome
    that keeps the state reached when the exception is raised. *)

From Stdlib Require Import String Ascii List NArith Lia DecimalString Bool.
From Stdlib Require Strings.Byte.
From stdpp Require Import base option gmap strings list fin_maps.

Local Open Scope string_scope.
Local Open Scope N_scope.

(** ** Python strings *)

Module PyStr.

(** [s.split(sep)] for a one-character separator. *)
Fixpoint split (sep : ascii) (s : string) : list string :=
  match s with
  | EmptyString => [EmptyString]
  | String c r =>
      if Ascii.eqb c sep then EmptyString :: split sep r
      else match split sep r with
           | seg :: segs => String c seg :: segs
           | [] => [String c EmptyString]
           end
  end.

(** [s.split(sep, 1)]: at most one cut, at the first separator. *)
Fixpoint split1 (sep : ascii) (s : string) : list string :=
  match s with
  | EmptyString => [EmptyString]
  | String c r =>
      if Ascii.eqb c sep then [EmptyString; r]
      else match split1 sep r with
           | seg :: segs => String c seg :: segs
           | [] => [String c EmptyString]
           end
  end.

(** [c.lower()] on one character: only A-Z change. *)
Definition lower_ascii (c : ascii) : ascii :=
  let n := N_of_ascii c in
  if (65 <=? n) && (n <=? 90) then ascii_of_N (n + 32) else c.

(** [s.lower()]. *)
Fixpoint lower (s : string) : string :=
  match s with
  | EmptyString => EmptyString
  | String c r => String (lower_ascii c) (lower r)
  end.

(** [str(i)] for a non-negative integer. *)
Definition str (i : N) : string := NilZero.string_of_uint (N.to_uint i).

(** [c in s] for a one-character [c]. *)
Fixpoint contains (c : ascii) (s : string) : bool :=
  match s with
  | EmptyString => false
  | String d r => Ascii.eqb d c || contains c r
  end.

(** [x in l] for a list of strings. *)
Definition mem (x : string) (l : list string) : bool :=
  existsb (String.eqb x) l.

(** [s != '/' * len(s)] is the negation of this. *)
Fixpoint all_char (c : ascii) (s : string) : bool :=
  match s with
  | EmptyString => true
  | String d r => Ascii.eqb d c && all_char c r
  end.

(** [c.upper()] on one character and [s.upper()]: only a-z change. *)
Definition upper_ascii (c : ascii) : ascii :=
  let n := N_of_ascii c in
  if (97 <=? n) && (n <=? 122) then ascii_of_N (n - 32) else c.

Fixpoint upper (s : string) : string :=
  match s with
  | EmptyString => EmptyString
  | String c r => String (upper_ascii c) (upper r)
  end.

(** [s.rstrip(c)] for a one-character [c]. *)
Fixpoint rstrip (c : ascii) (s : string) : string :=
  match s with
  | EmptyString => EmptyString
  | String d r => if all_char c s then EmptyString else String d (rstrip c r)
  end.

End PyStr.

(** ** Exceptions and list indexing *)

Inductive exn : Type :=
| ValueError
| IndexError
| KeyError
| UnboundLocalError
| FileNotFoundError
| EOFError.

Inductive outcome (A : Type) : Type :=
| Return (a : A)
| Raise (e : exn)
| OutOfFuel.
Arguments Return {A} a.
Arguments Raise {A} e.
Arguments OutOfFuel {A}.

(** [l[-1]] and [l[-2]]; out of range raises [IndexError]. *)
Definition index_m1 {A} (l : list A) : outcome A :=
  match rev l with
  | x :: _ => Return x
  | [] => Raise IndexError
  end.

Definition index_m2 {A} (l : list A) : outcome A :=
  match rev l with
  | _ :: x :: _ => Return x
  | _ => Raise IndexError
  end.

(** The last segment of [s.split(".")]; [split] never returns the empty
    list, so [s.split(".")[-1]] cannot raise and is given as a total
    function. *)
Definition last_segment (s : string) : string :=
  List.last (PyStr.split "." s) EmptyString.

(** ** posixpath *)

Module os_path.

(** [p[:p.rfind('/') + 1]]. *)
Fixpoint head_part (p : string) : string :=
  match p with
  | EmptyString => EmptyString
  | String c r =>
      if PyStr.contains "/" r then String c (head_part r)
      else if Ascii.eqb c "/" then String c EmptyString
      else EmptyString
  end.

(** [p[p.rfind('/') + 1:]], which is [os.path.basename]. *)
Fixpoint basename (p : string) : string :=
  match p with
  | EmptyString => EmptyString
  | String c r =>
      if PyStr.contains "/" r then basename r
      else if Ascii.eqb c "/" then r
      else p
  end.

(** [os.path.dirname]:
    head = p[:i]; if head and head != '/'*len(head): head = head.rstrip('/') *)
Definition dirname (p : string) : string :=
  let head := head_part p in
  if negb (String.eqb head EmptyString) && negb (PyStr.all_char "/" head)
  then PyStr.rstrip "/" head
  else head.

(** [os.path.join(a, b)] for two components. *)
Definition join (a b : string) : string :=
  match b with
  | String "/" _ => b
  | _ =>
      match a with
      | EmptyString => b
      | _ => if Ascii.eqb (List.last (list_ascii_of_string a) "/"%char) "/"
             then a ++ b else a ++ "/" ++ b
      end
  end.

End os_path.

(** ** The error monad of pure code *)

Global Instance outcome_ret : MRet outcome := fun _ a => Return a.
Global Instance outcome_bind : MBind outcome := fun _ _ f m =>
  match m with
  | Return a => f a
  | Raise e => Raise e
  | OutOfFuel => OutOfFuel
  end.

(** ** datetime *)

Record datetime : Type := mk_datetime {
  year : N; month : N; day : N; hour : N; minute : N; second : N
}.

Module strptime.

(** A regular expression with groups, run the way [re.match] runs it:
    every way of matching a prefix, in the order backtracking tries them,
    each with the value built and the unread rest.  Digits and white space
    are the ASCII ones. *)
Definition rx (A : Type) : Type := string -> list (A * string).

Definition rx_ret {A} (a : A) : rx A := fun s => [(a, s)].
Definition rx_bind {A B} (p : rx A) (f : A -> rx B) : rx B :=
  fun s => flat_map (fun '(a, r) => f a r) (p s).
Definition rx_alt {A} (p q : rx A) : rx A := fun s => (p s ++ q s)%list.

Notation "x <~ p ;; q" := (rx_bind p (fun x => q))
  (at level 100, p at next level, right associativity).
Infix "<|>" := rx_alt (at level 90, right associativity).

Definition is_digit (c : ascii) : bool :=
  let n := N_of_ascii c in (48 <=? n) && (n <=? 57).
Definition digit_value (c : ascii) : N := N_of_ascii c - 48.

(** [[lo-hi]] on digits; [\d] is [range 0 9]. *)
Definition range (lo hi : N) : rx N := fun s =>
  match s with
  | String c r =>
      if is_digit c && (lo <=? digit_value c) && (digit_value c <=? hi)
      then [(digit_value c, r)] else []
  | EmptyString => []
  end.
Definition d : rx N := range 0 9.

(** A literal character. *)
Definition lit (c : ascii) : rx unit := fun s =>
  match s with
  | String c' r => if Ascii.eqb c' c then [(tt, r)] else []
  | EmptyString => []
  end.

(** [\s]: space, \t \n \v \f \r and the separators 0x1c-0x1f. *)
Definition is_space (c : ascii) : bool :=
  let n := N_of_ascii c in
  (n =? 32) || ((9 <=? n) && (n <=? 13)) || ((28 <=? n) && (n <=? 31)).

(** [\s*] and [\s+], greedy: the longest run first. *)
Fixpoint spaces_star (s : string) : list (unit * string) :=
  match s with
  | String c r => if is_space c then (spaces_star r ++ [(tt, s)])%list else [(tt, s)]
  | EmptyString => [(tt, s)]
  end.
Definition spaces_plus : rx unit := fun s =>
  match s with
  | String c r => if is_space c then spaces_star r else []
  | EmptyString => []
  end.

Definition two (p q : rx N) : rx N := a <~ p ;; b <~ q ;; rx_ret (10 * a + b).

(** The groups of [_strptime.TimeRE]. *)
Definition rx_Y : rx N :=
  a <~ d ;; b <~ d ;; c <~ d ;; e <~ d ;;
  rx_ret (1000 * a + 100 * b + 10 * c + e).
Definition rx_m : rx N :=
  two (range 1 1) (range 0 2) <|> two (range 0 0) (range 1 9) <|> range 1 9.
Definition rx_d : rx N :=
  two (range 3 3) (range 0 1) <|> two (range 1 2) d
  <|> two (range 0 0) (range 1 9) <|> range 1 9
  <|> (_ <~ lit " " ;; range 1 9).
Definition rx_H : rx N :=
  two (range 2 2) (range 0 3) <|> two (range 0 1) d <|> d.
Definition rx_M : rx N := two (range 0 5) d <|> d.
Definition rx_S : rx N :=
  two (range 6 6) (range 0 1) <|> two (range 0 5) d <|> d.

(** The pattern compiled from the format "%Y:%m:%d %H:%M:%S". *)
Definition pattern : rx (N * N * N * N * N * N) :=
  Y <~ rx_Y ;; _ <~ lit ":" ;; m <~ rx_m ;; _ <~ lit ":" ;; dd <~ rx_d ;;
  _ <~ spaces_plus ;;
  hh <~ rx_H ;; _ <~ lit ":" ;; mm <~ rx_M ;; _ <~ lit ":" ;; ss <~ rx_S ;;
  rx_ret (Y, m, dd, hh, mm, ss).

Definition is_leap (y : N) : bool :=
  (y mod 4 =? 0) && (negb (y mod 100 =? 0) || (y mod 400 =? 0)).

Definition days_in_month (y m : N) : N :=
  if m =? 2 then (if is_leap y then 29 else 28)
  else if (m =? 4) || (m =? 6) || (m =? 9) || (m =? 11) then 30
  else 31.

(** The checks of the [datetime] constructor. *)
Definition valid (dt : datetime) : bool :=
  (1 <=? year dt) && (year dt <=? 9999)
  && (1 <=? month dt) && (month dt <=? 12)
  && (1 <=? day dt) && (day dt <=? days_in_month (year dt) (month dt))
  && (hour dt <=? 23) && (minute dt <=? 59) && (second dt <=? 59).

(** [datetime.strptime(s, "%Y:%m:%d %H:%M:%S")]: the first match must
    cover the whole string and name a real date and time. *)
Definition parse (s : string) : outcome datetime :=
  match pattern s with
  | ((Y, m, dd, hh, mm, ss), EmptyString) :: _ =>
      let dt := mk_datetime Y m dd hh mm ss in
      if valid dt then Return dt else Raise ValueError
  | _ => Raise ValueError
  end.

End strptime.

Module strftime.

Definition digit_char (n : N) : ascii := ascii_of_N (48 + n mod 10).

(** Zero-padded two-digit fields: %m %d %H %M %S. *)
Definition pad2 (n : N) : string :=
  String (digit_char (n / 10)) (String (digit_char n) EmptyString).

(** A four-digit zero-padded field: the year as metadata text writes it. *)
Definition pad4 (n : N) : string :=
  String (digit_char (n / 1000)) (String (digit_char (n / 100))
    (String (digit_char (n / 10)) (String (digit_char n) EmptyString))).

(** %Y as the C library under CPython on Linux prints it: the year in
    decimal, not padded, so a year below 1000 has fewer than four digits. *)
Definition year_field (n : N) : string := PyStr.str n.

End strftime.

(** ** The pure functions of the script *)

Definition multimediaFormats : list string :=
  ["png"; "jpg"; "jpeg"; "m4v"; "mov"; "mp4"].

(** [date_string.split("+", 1)[0]]; [split] never returns the empty list,
    so the index cannot raise. *)
Definition cut_out_time_zone (date_string : string) : string :=
  List.hd EmptyString (PyStr.split1 "+" date_string).

Definition get_datetime (date_string : string) : outcome datetime :=
  strptime.parse date_string.

Definition get_filename_from_datetime (dt : datetime) : string :=
  strftime.year_field (year dt) ++ strftime.pad2 (month dt)
  ++ strftime.pad2 (day dt)
  ++ "_" ++ strftime.pad2 (hour dt) ++ strftime.pad2 (minute dt)
  ++ strftime.pad2 (second dt).

(** [d[k]] on a dictionary. *)
Definition getitem (file : gmap string string) (k : string) : outcome string :=
  match file !! k with
  | Some v => Return v
  | None => Raise KeyError
  end.

Definition get_new_filename (file : gmap string string) (dt : datetime)
  : outcome string :=
  src ← getitem file "SourceFile";
  src' ← getitem file "SourceFile";
  mret (os_path.dirname src ++ "/" ++ get_filename_from_datetime dt ++ "."
        ++ PyStr.lower (last_segment src')).

(** ** The world: files, console input, and what the run did *)

Global Instance byte_eq_dec : EqDecision Byte.byte := Strings.Byte.byte_eq_dec.

Inductive event : Type :=
| EvExists (path : string) (answer : bool)
| EvOpen (path : string)
| EvRemove (path : string)
| EvRename (src dst : string)
| EvInput (prompt : string)
| EvPrint (line : string)
| EvLog (line : string).

(** [fs]: the regular files, by path; [dirs]: the paths of the directories
    that exist (the script creates and removes none); [stdin]: the console
    lines not read yet; [trace]: what has been done so far. *)
Record world : Type := mk_world {
  fs : gmap string (list Byte.byte);
  dirs : gset string;
  stdin : list string;
  trace : list event
}.

Definition emit (e : event) (w : world) : world :=
  mk_world (fs w) (dirs w) (stdin w) (trace w ++ [e])%list.

Definition set_fs (m : gmap string (list Byte.byte)) (w : world) : world :=
  mk_world m (dirs w) (stdin w) (trace w).

(** Whether [d], the directory part of a path, names a place where a file
    can be put: the current directory (empty [d]), the root (slashes only),
    or one of the directories that exist. *)
Definition directory_exists (w : world) (d : string) : bool :=
  PyStr.all_char "/" d || bool_decide (d ∈ dirs w).

(** Effectful code: a state transformer that may raise. *)
Definition M (A : Type) : Type := world -> world * outcome A.

Global Instance M_ret : MRet M := fun _ a w => (w, Return a).
Global Instance M_bind : MBind M := fun _ _ f m w =>
  match m w with
  | (w', Return a) => f a w'
  | (w', Raise e) => (w', Raise e)
  | (w', OutOfFuel) => (w', OutOfFuel)
  end.

Definition pure {A} (o : outcome A) : M A := fun w => (w, o).
Definition raise {A} (e : exn) : M A := fun w => (w, Raise e).
Definition out_of_fuel {A} : M A := fun w => (w, OutOfFuel).

(** Reading a local variable that may not have been assigned yet. *)
Definition read_local {A} (v : option A) : M A :=
  match v with
  | Some a => mret a
  | None => raise UnboundLocalError
  end.

(** [try: body except ValueError: handler]. *)
Definition try_except_ValueError {A} (body handler : M A) : M A := fun w =>
  match body w with
  | (w', Raise ValueError) => handler w'
  | r => r
  end.

Definition logging_info (line : string) : M unit :=
  fun w => (emit (EvLog line) w, Return tt).

Definition print (line : string) : M unit :=
  fun w => (emit (EvPrint line) w, Return tt).

(** [input(prompt)]: the next line of the console, [EOFError] at its end. *)
Definition input (prompt : string) : M string := fun w =>
  let w := emit (EvInput prompt) w in
  match stdin w with
  | line :: rest => (mk_world (fs w) (dirs w) rest (trace w), Return line)
  | [] => (w, Raise EOFError)
  end.

Definition os_path_exists (path : string) : M bool := fun w =>
  let b := bool_decide (is_Some (fs w !! path)) in
  (emit (EvExists path b) w, Return b).

(** [open(path, "rb")] followed by [read()]. *)
Definition open_read (path : string) : M (list Byte.byte) := fun w =>
  let w := emit (EvOpen path) w in
  match fs w !! path with
  | Some bytes => (w, Return bytes)
  | None => (w, Raise FileNotFoundError)
  end.

Definition os_remove (path : string) : M unit := fun w =>
  let w := emit (EvRemove path) w in
  match fs w !! path with
  | Some _ => (set_fs (delete path (fs w)) w, Return tt)
  | None => (w, Raise FileNotFoundError)
  end.

(** [os.rename(src, dst)]: [FileNotFoundError] when [src] does not exist
    or when the directory of [dst] does not; an existing [dst] is replaced,
    as on POSIX. *)
Definition os_rename (src dst : string) : M unit := fun w =>
  let w := emit (EvRename src dst) w in
  match fs w !! src with
  | Some bytes =>
      if directory_exists w (os_path.dirname dst)
      then (set_fs (<[dst := bytes]> (delete src (fs w))) w, Return tt)
      else (w, Raise FileNotFoundError)
  | None => (w, Raise FileNotFoundError)
  end.

(** ** The effectful functions of the script *)

Definition files_are_identical (file1_path file2_path : string) : M bool :=
  file1 ← open_read file1_path;
  file2 ← open_read file2_path;
  mret (bool_decide (file1 = file2)).

(** The [while True] loop of [change_filename_until_success]; [i] and
    [new_filename] are the variables it carries from one round to the next. *)
Fixpoint change_filename_loop (fuel : nat) (old_filename : string)
    (i : N) (new_filename : string) : M unit :=
  match fuel with
  | O => out_of_fuel
  | S fuel =>
      new_filename ←
        (if negb (i =? 1) then
           stem ← pure (index_m2 (PyStr.split "." new_filename));
           ext ← pure (index_m1 (PyStr.split "." new_filename));
           mret ("." ++ stem ++ " (" ++ PyStr.str i ++ ")." ++ ext)
         else mret new_filename);
      target_exists ← os_path_exists new_filename;
      if target_exists : bool then
        same ← files_are_identical old_filename new_filename;
        if same : bool then
          logging_info ("Didn't rename " ++ old_filename
            ++ ": new filename is the same. Old file will be removed.");;
          os_remove old_filename;;
          change_filename_loop fuel old_filename i new_filename
        else
          change_filename_loop fuel old_filename (i + 1) new_filename
      else
        source_exists ← os_path_exists old_filename;
        if source_exists : bool then
          os_rename old_filename new_filename;;
          logging_info ("New filename: " ++ new_filename)
        else
          logging_info ("Didn't rename " ++ old_filename
            ++ ": old file does not exist")
  end.

Definition change_filename_until_success (fuel : nat)
    (old_filename new_filename : string) : M unit :=
  change_filename_loop fuel old_filename 1 new_filename.

Definition rename_file_if_necessary (fuel : nat)
    (old_filename new_filename : string) : M unit :=
  (if String.eqb old_filename new_filename then
     logging_info ("Didn't rename " ++ old_filename
       ++ ": new filename is the same")
   else change_filename_until_success fuel old_filename new_filename);;
  logging_info "".

(** ** Enumeration, classification and the main loops

    The directory walk and the metadata extractor are the script's two
    collaborators; they are parameters of the model. *)

Section Script.

(** [os.walk(startpath)]: the (root, dirs, files) triples, in order. *)
Variable os_walk : string -> list (string * list string * list string).

(** [ExifToolHelper().get_metadata(paths)]: one dictionary per path. *)
Variable get_metadata : list string -> list (gmap string string).

(** The test of [list_files] on one file name. *)
Definition is_multimedia (file : string) : bool :=
  PyStr.mem (PyStr.lower (last_segment file)) multimediaFormats.

(** The inner [for file in files] loop, appending to [file_list]. *)
Fixpoint list_files_in_dir (root : string) (files : list string)
    (file_list : list string) : list string :=
  match files with
  | [] => file_list
  | file :: files =>
      list_files_in_dir root files
        (if is_multimedia file
         then (file_list ++ [os_path.join root file])%list
         else file_list)
  end.

(** The outer [for root, _, files in os.walk(startpath)] loop. *)
Fixpoint list_files_walk (walk : list (string * list string * list string))
    (file_list : list string) : list string :=
  match walk with
  | [] => file_list
  | (root, _, files) :: walk =>
      list_files_walk walk (list_files_in_dir root files file_list)
  end.

Definition list_files (startpath : string) : list string :=
  list_files_walk (os_walk startpath) [].

(** The condition of the classifier:
    "EXIF:DateTimeOriginal" in data
    and data["EXIF:DateTimeOriginal"] != "0000:00:00 00:00:00" *)
Definition has_datetimeoriginal (data : gmap string string) : bool :=
  match data !! "EXIF:DateTimeOriginal" with
  | Some v => negb (String.eqb v "0000:00:00 00:00:00")
  | None => false
  end.

(** The [for data in metadata] loop with its two accumulators. *)
Fixpoint classify (metadata : list (gmap string string))
    (valid_files invalid_files : list (gmap string string))
  : list (gmap string string) * list (gmap string string) :=
  match metadata with
  | [] => (valid_files, invalid_files)
  | data :: metadata =>
      if has_datetimeoriginal data
      then classify metadata (valid_files ++ [data])%list invalid_files
      else classify metadata valid_files (invalid_files ++ [data])%list
  end.

Definition find_files_with_datetimeoriginal_metadata (paths : list string)
  : list (gmap string string) * list (gmap string string) :=
  classify (get_metadata paths) [] [].

(** The [while True] prompt loop; it reads both datetime variables. *)
Fixpoint prompt_loop (rounds fuel : nat) (file : gmap string string)
    (modify_datetime create_datetime : option datetime) : M unit :=
  match rounds with
  | O => out_of_fuel
  | S rounds =>
      option ← input "Choose new filename - [O] Old, [M] Modify, [C] Creation: ";
      let choice := PyStr.upper option in
      if String.eqb choice "M" then
        src ← pure (getitem file "SourceFile");
        dt ← read_local modify_datetime;
        new_filename ← pure (get_new_filename file dt);
        rename_file_if_necessary fuel src new_filename
      else if String.eqb choice "C" then
        src ← pure (getitem file "SourceFile");
        dt ← read_local create_datetime;
        new_filename ← pure (get_new_filename file dt);
        rename_file_if_necessary fuel src new_filename
      else if String.eqb choice "O" then
        src ← pure (getitem file "SourceFile");
        logging_info ("Didn't rename " ++ src ++ " because of user choice")
      else
        logging_info "Wrong option. Try again";;
        prompt_loop rounds fuel file modify_datetime create_datetime
  end.

(** [modify_datetime] and [create_datetime] are local variables of the
    function; they are assigned in its first branch only, so the two
    [elif] branches read them unassigned. *)
Definition rename_file_if_any_date_metadata_exists (fuel : nat)
    (file : gmap string string)
    (file_modify_date file_create_date : option string) : M unit :=
  let modify_datetime : option datetime := None in
  let create_datetime : option datetime := None in
  match file_modify_date, file_create_date with
  | Some modify_date, Some create_date =>
      dt_m ← pure (get_datetime modify_date);
      let modify_datetime := Some dt_m in
      dt_c ← pure (get_datetime create_date);
      let create_datetime := Some dt_c in
      src ← pure (getitem file "SourceFile");
      logging_info ("Old filename: " ++ src);;
      logging_info ("Modify date: " ++ modify_date);;
      logging_info ("Creation date: " ++ create_date);;
      prompt_loop fuel fuel file modify_datetime create_datetime
  | Some _, None =>
      src ← pure (getitem file "SourceFile");
      dt ← read_local modify_datetime;
      new_filename ← pure (get_new_filename file dt);
      rename_file_if_necessary fuel src new_filename
  | None, Some _ =>
      src ← pure (getitem file "SourceFile");
      dt ← read_local create_datetime;
      new_filename ← pure (get_new_filename file dt);
      rename_file_if_necessary fuel src new_filename
  | None, None =>
      src ← pure (getitem file "SourceFile");
      logging_info ("File: " ++ src ++ " doesn't contain useful date metadata")
  end.

(** The loop over [valid_files]; [new_filename] is a local variable of
    [main] that keeps its value from one round to the next. *)
Fixpoint valid_files_loop (fuel : nat) (files : list (gmap string string))
    (new_filename : option string) : M unit :=
  match files with
  | [] => mret tt
  | file :: files =>
      old_filename ← pure (getitem file "SourceFile");
      new_filename ←
        try_except_ValueError
          (date ← pure (getitem file "EXIF:DateTimeOriginal");
           dt ← pure (get_datetime date);
           name ← pure (get_new_filename file dt);
           mret (Some name))
          (print "";; mret new_filename);
      logging_info ("Old filename: " ++ old_filename);;
      date ← pure (getitem file "EXIF:DateTimeOriginal");
      logging_info ("Original image date: " ++ date);;
      target ← read_local new_filename;
      rename_file_if_necessary fuel old_filename target;;
      valid_files_loop fuel files new_filename
  end.

(** The loop over [invalid_files]. *)
Fixpoint invalid_files_loop (fuel : nat) (files : list (gmap string string))
  : M unit :=
  match files with
  | [] => mret tt
  | file :: files =>
      let file_modify_date :=
        cut_out_time_zone <$> (file !! "File:FileModifyDate") in
      let file_create_date :=
        cut_out_time_zone <$> (file !! "File:FileCreateDate") in
      rename_file_if_any_date_metadata_exists fuel file
        file_modify_date file_create_date;;
      logging_info "";;
      invalid_files_loop fuel files
  end.

(** [main], after the logging set-up. *)
Definition main (fuel : nat) : M unit :=
  let old_paths := list_files ".\images" in
  let '(valid_files, invalid_files) :=
    find_files_with_datetimeoriginal_metadata old_paths in
  logging_info "Good files:";;
  valid_files_loop fuel valid_files None;;
  logging_info "Error files:";;
  invalid_files_loop fuel invalid_files.

End Script.

(** ** Concrete directories used in the statements below *)

Module Scenario.

Definition photo_a : list Byte.byte := [Byte.x01].
Definition photo_b : list Byte.byte := [Byte.x02].
Definition photo_c : list Byte.byte := [Byte.x03].

Definition stamp : string := ".\images/20210511_123456.jpg".
Definition stamp2 : string := ".\images/20210511_123456 (2).jpg".

(** The one directory the script works in. *)
Definition folders : gset string := {[ ".\images" ]}.

Definition start (files : gmap string (list Byte.byte)) : world :=
  mk_world files folders [] [].

(** Two different photos taken in the same second, not yet renamed. *)
Definition fresh_dir : gmap string (list Byte.byte) :=
  {[ ".\images/a.jpg" := photo_a; ".\images/b.jpg" := photo_b ]}.

(** The same two photos after one run of the script. *)
Definition renamed_dir : gmap string (list Byte.byte) :=
  {[ stamp := photo_a; stamp2 := photo_b ]}.

(** A new photo whose target name is taken by a byte-identical file. *)
Definition duplicate_dir : gmap string (list Byte.byte) :=
  {[ ".\images/a.jpg" := photo_a; stamp := photo_a ]}.

(** A new photo whose target name and first retry name are both taken by
    different photos. *)
Definition crowded_dir : gmap string (list Byte.byte) :=
  {[ ".\images/a.jpg" := photo_a; stamp := photo_b; stamp2 := photo_c ]}.

Definition walk_fresh (_ : string)
  : list (string * list string * list string) :=
  [(".\images", [], ["a.jpg"; "b.jpg"])].


(** An extractor that reports the same capture time for every file. *)
Definition same_second (paths : list string) : list (gmap string string) :=
  map (fun p => {[ "SourceFile" := p;
                   "EXIF:DateTimeOriginal" := "2021:05:11 12:34:56" ]}) paths.

Definition record_of (path date : string) : gmap string string :=
  {[ "SourceFile" := path; "EXIF:DateTimeOriginal" := date ]}.



(** A directory that holds one file, named PNG. *)
Definition walk_png (_ : string) : list (string * list string * list string) :=
  [(".\images", [], ["PNG"])].

End Scenario.

(** ** Notions used to state the properties *)

(** The paths one directory contributes to [list_files]. *)
Definition kept_in_dir (root : string) (files : list string) : list string :=
  map (os_path.join root) (List.filter is_multimedia files).

Fixpoint all_digits (s : string) : bool :=
  match s with
  | EmptyString => true
  | String c r => strptime.is_digit c && all_digits r
  end.

(** The shape YYYYMMDD_HHMMSS: eight digits, an underscore, six digits. *)
Definition stamp_shape (s : string) : bool :=
  (String.length s =? 15)%nat
  && all_digits (substring 0 8 s)
  && (substring 8 1 s =? "_")%string
  && all_digits (substring 9 6 s).

(** The number a string of decimal digits denotes. *)
Fixpoint decimal_value_from (acc : N) (s : string) : N :=
  match s with
  | EmptyString => acc
  | String c r => decimal_value_from (10 * acc + strptime.digit_value c) r
  end.
Definition decimal_value (s : string) : N := decimal_value_from 0 s.

(** The date and time a name of that shape spells out. *)
Definition read_stamp (s : string) : datetime :=
  mk_datetime (decimal_value (substring 0 4 s)) (decimal_value (substring 4 2 s))
    (decimal_value (substring 6 2 s)) (decimal_value (substring 9 2 s))
    (decimal_value (substring 11 2 s)) (decimal_value (substring 13 2 s)).

(** [w'] differs from [w] by log lines only: same files, same console
    input, and nothing but log entries added to the trace. *)
Definition only_logged (w w' : world) : Prop :=
  fs w' = fs w /\ stdin w' = stdin w
  /\ exists lines, trace w' = (trace w ++ map EvLog lines)%list.

(** A record whose file already carries the name derived from its
    EXIF:DateTimeOriginal. *)
Definition settled (file : gmap string string) : Prop :=
  exists src date dt,
    file !! "SourceFile" = Some src
    /\ file !! "EXIF:DateTimeOriginal" = Some date
    /\ get_datetime date = Return dt
    /\ get_new_filename file dt = Return src.

(** A record with neither fallback date. *)
Definition no_fallback_dates (file : gmap string string) : Prop :=
  is_Some (file !! "SourceFile")
  /\ file !! "File:FileModifyDate" = None
  /\ file !! "File:FileCreateDate" = None.

(** The text ExifTool writes for a date and time: YYYY:MM:DD HH:MM:SS. *)
Definition exif_form (dt : datetime) : string :=
  strftime.pad4 (year dt) ++ ":" ++ strftime.pad2 (month dt) ++ ":"
  ++ strftime.pad2 (day dt) ++ " " ++ strftime.pad2 (hour dt) ++ ":"
  ++ strftime.pad2 (minute dt) ++ ":" ++ strftime.pad2 (second dt).

(** [a] with rest [r] is the first match of [p] on [s]. *)
Definition first_match {A} (p : strptime.rx A) (s : string) (a : A) (r : string)
  : Prop :=
  exists others, p s = (a, r) :: others.

(** The computation [m] leaves the file at [p], with bytes [b], alone. *)
Definition keeps_file {A} (p : string) (b : list Byte.byte) (m : M A) : Prop :=
  forall w, fs w !! p = Some b -> fs (m w).1 !! p = Some b.

(** The events that change the directory, and how many a trace holds. *)
Definition is_mutation (e : event) : bool :=
  match e with
  | EvRemove _ | EvRename _ _ => true
  | _ => false
  end.
Definition mutations (t : list event) : nat :=
  length (List.filter is_mutation t).

(** A console line that is none of the three accepted answers. *)
Definition wrong_option (line : string) : Prop :=
  PyStr.upper line <> "M" /\ PyStr.upper line <> "C"
  /\ PyStr.upper line <> "O".

(** The question the prompt asks. *)
Definition prompt_text : string :=
  "Choose new filename - [O] Old, [M] Modify, [C] Creation: ".





(** Whether [year_field] and the four-digit field agree on the [count]
    years from [n] on. *)
Fixpoint year_fields_agree (count : nat) (n : N) : bool :=
  match count with
  | O => true
  | S count =>
      String.eqb (strftime.year_field n) (strftime.pad4 n)
      && year_fields_agree count (N.succ n)
  end.

(** * Properties *)

(** ** The collision loop *)

(** Comparing two files changes no file. *)
Lemma files_are_identical_fs (a b : string) (w : world) :
  fs (files_are_identical a b w).1 = fs w.
Proof.
  unfold files_are_identical, mbind, M_bind, open_read. simpl.
  destruct (fs w !! a); [|reflexivity]. simpl.
  destruct (fs w !! b); reflexivity.
Qed.

(** Whatever the loop does and however it ends, every file other than the
    source keeps its path and its bytes: no existing file is overwritten or
    removed. *)
Lemma change_filename_loop_keeps_other_files
    (fuel : nat) (old p : string) (bytes : list Byte.byte) :
  p <> old ->
  forall (i : N) (new : string) (w : world),
    fs w !! p = Some bytes ->
    fs (change_filename_loop fuel old i new w).1 !! p = Some bytes.
Proof.
  intros Hne. induction fuel as [|fuel IH]; intros i new w Hp; [exact Hp|].
  cbn [change_filename_loop].
  unfold mbind at 1, M_bind at 1.
  match goal with |- context [match ?c w with _ => _ end] =>
    assert (Hc : exists o, c w = (w, o)) end.
  { destruct (negb (i =? 1)); [|eexists; reflexivity].
    unfold mbind, M_bind, pure.
    destruct (index_m2 _); try (eexists; reflexivity).
    destruct (index_m1 _); eexists; reflexivity. }
  destruct Hc as [o ->].
  destruct o as [cand| |]; [|exact Hp|exact Hp].
  unfold mbind at 1, M_bind at 1, os_path_exists at 1.
  destruct (bool_decide (is_Some (fs w !! cand))) eqn:Hex.
  - unfold mbind at 1, M_bind at 1.
    pose proof (files_are_identical_fs old cand
                  (emit (EvExists cand true) w)) as Hfs.
    destruct (files_are_identical old cand (emit (EvExists cand true) w))
      as [w1 [same| |]]; simpl in Hfs; try (simpl; rewrite Hfs; exact Hp).
    destruct same.
    + unfold mbind at 1, M_bind at 1, logging_info at 1.
      unfold mbind at 1, M_bind at 1, os_remove at 1. simpl.
      destruct (fs w1 !! old) eqn:Hold; simpl.
      * apply IH. simpl. rewrite lookup_delete_ne by congruence.
        rewrite Hfs. exact Hp.
      * rewrite Hfs. exact Hp.
    + apply IH. rewrite Hfs. exact Hp.
  - apply bool_decide_eq_false in Hex.
    unfold mbind at 1, M_bind at 1, os_path_exists at 1. simpl.
    destruct (bool_decide (is_Some (fs w !! old))).
    + unfold mbind, M_bind, os_rename, logging_info. simpl.
      destruct (fs w !! old) eqn:Hold; simpl; [|exact Hp].
      destruct (directory_exists _ _); simpl; [|exact Hp].
      rewrite lookup_insert_ne.
      * rewrite lookup_delete_ne by congruence. exact Hp.
      * intros ->. apply Hex. eauto.
    + simpl. exact Hp.
Qed.

Lemma exists_true (w : world) (p : string) (b : list Byte.byte) :
  fs w !! p = Some b -> bool_decide (is_Some (fs w !! p)) = true.
Proof. intros H. apply bool_decide_eq_true. eauto. Qed.

Lemma exists_false (w : world) (p : string) :
  fs w !! p = None -> bool_decide (is_Some (fs w !! p)) = false.
Proof. intros H. apply bool_decide_eq_false. rewrite H. intros [? ?]. discriminate. Qed.

(** A free target: one round, one rename. *)
Lemma directory_exists_emit (e : event) (w : world) (d : string) :
  directory_exists (emit e w) d = directory_exists w d.
Proof. reflexivity. Qed.

Lemma free_target_is_renamed (n : nat) (old new : string) (w : world)
    (b : list Byte.byte) :
  fs w !! new = None ->
  fs w !! old = Some b ->
  directory_exists w (os_path.dirname new) = true ->
  change_filename_until_success (S n) old new w
  = (mk_world (<[new := b]> (delete old (fs w))) (dirs w) (stdin w)
       (trace w ++ [EvExists new false; EvExists old true; EvRename old new;
                    EvLog ("New filename: " ++ new)]),
     Return tt).
Proof.
  intros Hnew Hold Hdir.
  unfold change_filename_until_success. cbn [change_filename_loop].
  change (negb (1 =? 1)) with false. cbv beta iota.
  unfold mbind, M_bind, mret, M_ret, os_path_exists, os_rename, logging_info,
    emit, set_fs. simpl.
  rewrite (exists_false w new Hnew). simpl.
  rewrite (exists_true w old b Hold). simpl. rewrite Hold. simpl.
  unfold directory_exists in *. simpl. rewrite Hdir. simpl.
  rewrite <- !app_assoc. reflexivity.
Qed.

(** A byte-identical target under another name: the source is removed, the
    target is left as it is, and the next round raises. *)
Lemma identical_target_removes_then_raises (n : nat) (old new : string)
    (w : world) (b : list Byte.byte) :
  old <> new ->
  fs w !! old = Some b ->
  fs w !! new = Some b ->
  change_filename_until_success (2 + n) old new w
  = (mk_world (delete old (fs w)) (dirs w) (stdin w)
       (trace w ++ [EvExists new true; EvOpen old; EvOpen new;
                    EvLog ("Didn't rename " ++ old
                      ++ ": new filename is the same. Old file will be removed.");
                    EvRemove old; EvExists new true; EvOpen old]),
     Raise FileNotFoundError).
Proof.
  intros Hne Hold Hnew.
  unfold change_filename_until_success. cbn [change_filename_loop Nat.add].
  change (negb (1 =? 1)) with false. cbv beta iota.
  unfold files_are_identical.
  unfold mbind, M_bind, mret, M_ret, os_path_exists,
    open_read, os_remove, logging_info, emit, set_fs. simpl.
  rewrite (exists_true w new b Hnew). simpl. rewrite Hold. simpl.
  rewrite Hnew. simpl.
  rewrite bool_decide_eq_true_2 by reflexivity. simpl. rewrite Hold. simpl.
  rewrite lookup_delete_ne by exact Hne.
  rewrite (exists_true w new b Hnew). simpl.
  rewrite lookup_delete_eq. simpl.
  rewrite <- !app_assoc. reflexivity.
Qed.

(** A different file under the target name and a free first retry name:
    the source is renamed to the target with " (2)" before the extension. *)
Lemma first_retry_inserts_counter (n : nat) (old new stem ext : string)
    (w : world) (b c : list Byte.byte) :
  index_m2 (PyStr.split "." new) = Return stem ->
  index_m1 (PyStr.split "." new) = Return ext ->
  fs w !! old = Some b ->
  fs w !! new = Some c ->
  b <> c ->
  fs w !! ("." ++ stem ++ " (2)." ++ ext) = None ->
  directory_exists w (os_path.dirname ("." ++ stem ++ " (2)." ++ ext)) = true ->
  change_filename_until_success (2 + n) old new w
  = (mk_world (<["." ++ stem ++ " (2)." ++ ext := b]> (delete old (fs w)))
       (dirs w) (stdin w)
       (trace w ++ [EvExists new true; EvOpen old; EvOpen new;
                    EvExists ("." ++ stem ++ " (2)." ++ ext) false;
                    EvExists old true;
                    EvRename old ("." ++ stem ++ " (2)." ++ ext);
                    EvLog ("New filename: " ++ "." ++ stem ++ " (2)." ++ ext)]),
     Return tt).
Proof.
  intros Hstem Hext Hold Hnew Hdiff Hfree Hdir.
  unfold change_filename_until_success. cbn [change_filename_loop Nat.add].
  change (negb (1 =? 1)) with false. change (negb (1 + 1 =? 1)) with true.
  change (PyStr.str (1 + 1)) with "2".
  cbv beta iota.
  unfold files_are_identical.
  unfold mbind, M_bind, mret, M_ret, pure, os_path_exists,
    open_read, os_rename, logging_info, emit, set_fs.
  unfold directory_exists in *.
  repeat (cbv beta iota; cbn [fs dirs stdin trace];
          change ("." ++ stem ++ " (" ++ "2" ++ ")." ++ ext)
            with ("." ++ stem ++ " (2)." ++ ext);
          first [ rewrite (exists_true w new c Hnew)
                | rewrite (exists_true w old b Hold)
                | rewrite (exists_false w _ Hfree)
                | rewrite Hfree | rewrite Hold | rewrite Hnew
                | rewrite Hstem | rewrite Hext | rewrite Hdir
                | rewrite (bool_decide_eq_false_2 _ Hdiff) ]).
  cbn [fs dirs stdin trace]. rewrite <- ?app_assoc. reflexivity.
Qed.

(** C1: the routine can destroy a file's content.  In a directory that holds
    a photo under the timestamp name and a different photo under the same
    name with the suffix " (2)", renaming the second towards the timestamp
    name makes the first retry candidate the source itself; the source is
    then compared with itself, found identical and deleted, and its bytes
    are left under no path. *)
Theorem rename_deletes_source_when_retry_name_is_source (n : nat) :
  let w := Scenario.start Scenario.renamed_dir in
  let r := rename_file_if_necessary (3 + n) Scenario.stamp2 Scenario.stamp w in
  fs w !! Scenario.stamp2 = Some Scenario.photo_b
  /\ r.2 = Return tt
  /\ map_to_list (fs r.1) = [(Scenario.stamp, Scenario.photo_a)]
  /\ (forall p, fs r.1 !! p <> Some Scenario.photo_b)
  /\ In (EvRemove Scenario.stamp2) (trace r.1).
Proof.
  intros w r.
  assert (Hl : map_to_list (fs r.1) = [(Scenario.stamp, Scenario.photo_a)])
    by (vm_compute; reflexivity).
  split; [vm_compute; reflexivity|].
  split; [vm_compute; reflexivity|].
  split; [exact Hl|].
  split.
  - intros p Hp. apply elem_of_map_to_list in Hp. rewrite Hl in Hp.
    apply list_elem_of_singleton in Hp. discriminate.
  - vm_compute. tauto.
Qed.

(** C2: when the target exists and is byte-identical to the source, the
    source is removed but the loop does not stop: it checks the target
    again, opens the removed source for a second comparison and the call
    ends with FileNotFoundError. *)
Theorem duplicate_target_loop_continues_after_removal (n : nat) :
  let old := ".\images/a.jpg" in
  let w := Scenario.start Scenario.duplicate_dir in
  let r := change_filename_until_success (2 + n) old Scenario.stamp w in
  r.2 = Raise FileNotFoundError
  /\ trace r.1 =
       [ EvExists Scenario.stamp true; EvOpen old; EvOpen Scenario.stamp;
         EvLog "Didn't rename .\images/a.jpg: new filename is the same. Old file will be removed.";
         EvRemove old;
         EvExists Scenario.stamp true; EvOpen old ]
  /\ map_to_list (fs r.1) = [(Scenario.stamp, Scenario.photo_a)].
Proof. intros old w r. repeat split; vm_compute; reflexivity. Qed.

(** C3: the second retry candidate is built from the first retry candidate,
    not from the original target: with the target and its " (2)" name both
    taken by different files, the source ends up under
    "20210511_123456 (2) (3).jpg", and "20210511_123456 (3).jpg" is never
    tried. *)
Theorem second_retry_stacks_suffixes (n : nat) :
  let old := ".\images/a.jpg" in
  let w := Scenario.start Scenario.crowded_dir in
  let r := change_filename_until_success (3 + n) old Scenario.stamp w in
  r.2 = Return tt
  /\ fs r.1 !! ".\images/20210511_123456 (2) (3).jpg" = Some Scenario.photo_a
  /\ fs r.1 !! ".\images/20210511_123456 (3).jpg" = None
  /\ trace r.1 =
       [ EvExists Scenario.stamp true; EvOpen old; EvOpen Scenario.stamp;
         EvExists Scenario.stamp2 true; EvOpen old; EvOpen Scenario.stamp2;
         EvExists ".\images/20210511_123456 (2) (3).jpg" false;
         EvExists old true;
         EvRename old ".\images/20210511_123456 (2) (3).jpg";
         EvLog "New filename: .\images/20210511_123456 (2) (3).jpg" ].
Proof. intros old w r. repeat split; vm_compute; reflexivity. Qed.

(** ** Fallback dates *)

(** C4: with only one of the two fallback dates present the function reads a
    datetime variable that was never assigned on that path, so it raises
    (UnboundLocalError when the record has a SourceFile, KeyError before
    that when it has none) and renames nothing; this holds for the
    modify-date-only branch and for the create-date-only branch alike. *)
Theorem single_fallback_date_raises_without_renaming
    (fuel : nat) (file : gmap string string) (date : string) (w : world) :
  let e := if file !! "SourceFile" is Some _ then UnboundLocalError
           else KeyError in
  rename_file_if_any_date_metadata_exists fuel file (Some date) None w
    = (w, Raise e)
  /\ rename_file_if_any_date_metadata_exists fuel file None (Some date) w
    = (w, Raise e).
Proof.
  unfold rename_file_if_any_date_metadata_exists, mbind, M_bind, pure, getitem.
  destruct (file !! "SourceFile"); simpl; split; reflexivity.
Qed.

(** ** Dates that do not parse *)

(** C5: a date that fails to parse is caught, but the loop goes on to rename
    with whatever [new_filename] holds.  When the malformed file comes
    first, the variable is unassigned and the whole batch stops with
    UnboundLocalError before the next file is looked at; when it comes
    after a good file, it is renamed to the good file's name with a
    counter added. *)
Theorem malformed_date_is_not_skipped (n : nat) :
  let good := Scenario.record_of ".\images/a.jpg" "2021:05:11 12:34:56" in
  let bad := Scenario.record_of ".\images/b.jpg" "2021-05-11" in
  let w := Scenario.start Scenario.fresh_dir in
  let halted := valid_files_loop (2 + n) [bad; good] None w in
  let renamed := valid_files_loop (2 + n) [good; bad] None w in
  get_datetime "2021-05-11" = Raise ValueError
  /\ halted.2 = Raise UnboundLocalError
  /\ fs halted.1 !! ".\images/a.jpg" = Some Scenario.photo_a
  /\ renamed.2 = Return tt
  /\ fs renamed.1 !! ".\images/b.jpg" = None
  /\ fs renamed.1 !! Scenario.stamp2 = Some Scenario.photo_b
  /\ In (EvRename ".\images/b.jpg" Scenario.stamp2) (trace renamed.1).
Proof.
  intros good bad w halted renamed.
  repeat split; try (vm_compute; reflexivity).
  vm_compute. tauto.
Qed.

(** ** Time zones *)

Lemma split1_without_separator (sep : ascii) (s : string) :
  PyStr.contains sep s = false -> PyStr.split1 sep s = [s].
Proof.
  induction s as [|c s IH]; simpl; [reflexivity|].
  destruct (Ascii.eqb c sep); simpl; [discriminate|].
  intros H. rewrite (IH H). reflexivity.
Qed.

Lemma split1_at_separator (sep : ascii) (s t : string) :
  PyStr.contains sep s = false ->
  PyStr.split1 sep (s ++ String sep t) = [s; t].
Proof.
  induction s as [|c s IH]; simpl.
  - rewrite Ascii.eqb_refl. reflexivity.
  - destruct (Ascii.eqb c sep); simpl; [discriminate|].
    intros H. rewrite (IH H). reflexivity.
Qed.

(** What [cut_out_time_zone] does: a string without "+" comes back as it
    is, and everything from the first "+" on is dropped. *)
Lemma cut_out_time_zone_without_plus (s : string) :
  PyStr.contains "+" s = false -> cut_out_time_zone s = s.
Proof.
  intros H. unfold cut_out_time_zone.
  rewrite split1_without_separator by assumption. reflexivity.
Qed.

Lemma cut_out_time_zone_plus_suffix (s tz : string) :
  PyStr.contains "+" s = false -> cut_out_time_zone (s ++ String "+" tz) = s.
Proof.
  intros H. unfold cut_out_time_zone.
  rewrite split1_at_separator by assumption. reflexivity.
Qed.

(** C9: a time zone west of Greenwich is written with "-", which
    [cut_out_time_zone] does not cut: the string comes back with its
    suffix and [get_datetime] rejects it.  The same date with a "+" suffix
    is cut and parses. *)
Theorem negative_time_zone_is_not_removed :
  cut_out_time_zone "2021:05:11 12:34:56-05:00" = "2021:05:11 12:34:56-05:00"
  /\ get_datetime (cut_out_time_zone "2021:05:11 12:34:56-05:00")
     = Raise ValueError
  /\ get_datetime (cut_out_time_zone "2021:05:11 12:34:56+02:00")
     = Return (mk_datetime 2021 5 11 12 34 56).
Proof. repeat split; vm_compute; reflexivity. Qed.

(** ** Classification *)

Lemma classify_accumulates (metadata valid invalid : list (gmap string string)) :
  classify metadata valid invalid
  = ((valid ++ List.filter has_datetimeoriginal metadata)%list,
     (invalid ++ List.filter (fun d => negb (has_datetimeoriginal d)) metadata)%list).
Proof.
  revert valid invalid.
  induction metadata as [|data metadata IH]; intros valid invalid; simpl.
  - rewrite !app_nil_r. reflexivity.
  - destruct (has_datetimeoriginal data); simpl; rewrite IH, <- app_assoc;
      reflexivity.
Qed.

Lemma has_datetimeoriginal_iff (data : gmap string string) :
  has_datetimeoriginal data = true
  <-> exists v, data !! "EXIF:DateTimeOriginal" = Some v
                /\ v <> "0000:00:00 00:00:00".
Proof.
  unfold has_datetimeoriginal.
  destruct (data !! "EXIF:DateTimeOriginal") as [v|].
  - rewrite negb_true_iff, String.eqb_neq. split.
    + intros H. exists v. split; [reflexivity | exact H].
    + intros (v' & Hv & Hne). injection Hv as ->. exact Hne.
  - split; [discriminate|]. intros (v & Hv & _). discriminate.
Qed.

(** C7, as the code has it: the result is the pair of the records that carry
    an EXIF:DateTimeOriginal value different from the zero sentinel and of
    the records that do not, each in input order; an empty value is not the
    sentinel, so a record with an empty tag is valid. *)
Theorem find_files_partitions_by_sentinel
    (get_metadata : list string -> list (gmap string string))
    (paths : list string) :
  find_files_with_datetimeoriginal_metadata get_metadata paths
  = (List.filter has_datetimeoriginal (get_metadata paths),
     List.filter (fun d => negb (has_datetimeoriginal d)) (get_metadata paths))
  /\ (forall data, has_datetimeoriginal data = true
        <-> exists v, data !! "EXIF:DateTimeOriginal" = Some v
                      /\ v <> "0000:00:00 00:00:00")
  /\ has_datetimeoriginal {[ "EXIF:DateTimeOriginal" := "" ]} = true.
Proof.
  split; [|split].
  - unfold find_files_with_datetimeoriginal_metadata.
    rewrite classify_accumulates. reflexivity.
  - exact has_datetimeoriginal_iff.
  - reflexivity.
Qed.

(** C7, as the claim states it, fails: a record whose EXIF:DateTimeOriginal
    is the empty string is placed in the valid sequence. *)
Lemma empty_datetimeoriginal_is_valid :
  ~ (forall (get_metadata : list string -> list (gmap string string))
            (paths : list string) (data : gmap string string),
        In data (get_metadata paths) ->
        (In data (find_files_with_datetimeoriginal_metadata get_metadata paths).1
         <-> exists v, data !! "EXIF:DateTimeOriginal" = Some v
                       /\ v <> "" /\ v <> "0000:00:00 00:00:00")).
Proof.
  intros H.
  pose (data := ({[ "EXIF:DateTimeOriginal" := "" ]} : gmap string string)).
  destruct (H (fun _ => [data]) [".\images/a.jpg"] data) as [Hvalid _].
  - left. reflexivity.
  - destruct Hvalid as (v & Hv & Hne & _).
    + left. reflexivity.
    + apply Hne. vm_compute in Hv. congruence.
Qed.

(** ** Enumeration *)

Lemma split_without_separator (sep : ascii) (s : string) :
  PyStr.contains sep s = false -> PyStr.split sep s = [s].
Proof.
  induction s as [|c s IH]; simpl; [reflexivity|].
  destruct (Ascii.eqb c sep); simpl; [discriminate|].
  intros H. rewrite (IH H). reflexivity.
Qed.

Lemma last_segment_dotless (s : string) :
  PyStr.contains "." s = false -> last_segment s = s.
Proof.
  intros H. unfold last_segment.
  rewrite split_without_separator by assumption. reflexivity.
Qed.

Lemma mem_iff_In (x : string) (l : list string) :
  PyStr.mem x l = true <-> In x l.
Proof.
  unfold PyStr.mem. rewrite existsb_exists. split.
  - intros (y & Hy & Heq). apply String.eqb_eq in Heq. subst. exact Hy.
  - intros H. exists x. split; [exact H | apply String.eqb_refl].
Qed.

Lemma list_files_in_dir_spec (root : string) (files file_list : list string) :
  list_files_in_dir root files file_list
  = (file_list ++ kept_in_dir root files)%list.
Proof.
  revert file_list. unfold kept_in_dir.
  induction files as [|file files IH]; intros file_list; simpl.
  - rewrite app_nil_r. reflexivity.
  - rewrite IH. destruct (is_multimedia file); simpl;
      [rewrite <- app_assoc|]; reflexivity.
Qed.

Lemma list_files_walk_spec
    (walk : list (string * list string * list string)) (file_list : list string) :
  list_files_walk walk file_list
  = (file_list
     ++ flat_map (fun '(root, _, files) => kept_in_dir root files) walk)%list.
Proof.
  revert file_list.
  induction walk as [|[[root dirs] files] walk IH]; intros file_list; simpl.
  - rewrite app_nil_r. reflexivity.
  - rewrite IH, list_files_in_dir_spec, <- app_assoc. reflexivity.
Qed.

(** C10: for a file name without a dot the extension test is a test on the
    whole lowercased name, and each such file met by the walk adds its path
    to the result exactly when that name is in the allow-list. *)
Theorem dotless_name_listed_iff_whole_name_allowed
    (file : string) (Hdotless : PyStr.contains "." file = false) :
  (is_multimedia file = true <-> In (PyStr.lower file) multimediaFormats)
  /\ forall os_walk startpath pre root dirs before after post,
       os_walk startpath
       = (pre ++ (root, dirs, before ++ file :: after) :: post)%list ->
       list_files os_walk startpath
       = (list_files (fun _ => pre ++ [(root, dirs, before)]) startpath
          ++ (if PyStr.mem (PyStr.lower file) multimediaFormats
              then [os_path.join root file] else [])
          ++ list_files (fun _ => (root, dirs, after) :: post) startpath)%list.
Proof.
  assert (Htest : is_multimedia file
                  = PyStr.mem (PyStr.lower file) multimediaFormats).
  { unfold is_multimedia. rewrite last_segment_dotless by assumption.
    reflexivity. }
  split.
  - rewrite Htest. apply mem_iff_In.
  - intros os_walk startpath pre root dirs before after post Hwalk.
    revert Htest.
    generalize (PyStr.mem (PyStr.lower file) multimediaFormats) as allowed.
    intros allowed Htest.
    unfold list_files. rewrite Hwalk, !list_files_walk_spec.
    rewrite !flat_map_app. cbn [flat_map app]. unfold kept_in_dir.
    rewrite List.filter_app, !map_app. cbn [List.filter]. rewrite Htest.
    rewrite !app_nil_r, <- !app_assoc.
    destruct allowed; reflexivity.
Qed.

(** The file literally named "PNG" is enumerated. *)
Lemma file_named_PNG_is_listed :
  PyStr.contains "." "PNG" = false
  /\ (is_multimedia "PNG" = true <-> In "png" multimediaFormats)
  /\ list_files (fun _ => [(".\images", [], ["notes"; "PNG"])]) ".\images"
     = [".\images/PNG"].
Proof.
  split; [reflexivity|].
  split.
  - exact (proj1 (dotless_name_listed_iff_whole_name_allowed "PNG" eq_refl)).
  - rewrite (proj2 (dotless_name_listed_iff_whole_name_allowed "PNG" eq_refl)
               (fun _ => [(".\images", [], ["notes"; "PNG"])]) ".\images"
               [] ".\images" [] ["notes"] [] [] eq_refl).
    reflexivity.
Defined.

(** ** Facts about strings and paths *)

Lemma string_app_assoc (a b c : string) : (a ++ b) ++ c = a ++ (b ++ c).
Proof.
  induction a as [|d a IH]; [reflexivity|].
  change (String d ((a ++ b) ++ c) = String d (a ++ (b ++ c))).
  rewrite IH. reflexivity.
Qed.

Lemma contains_app (c : ascii) (a b : string) :
  PyStr.contains c (a ++ b) = PyStr.contains c a || PyStr.contains c b.
Proof.
  induction a as [|d a IH]; simpl; [reflexivity|].
  rewrite IH, orb_assoc. reflexivity.
Qed.

Lemma all_char_app (c : ascii) (a b : string) :
  PyStr.all_char c (a ++ b) = PyStr.all_char c a && PyStr.all_char c b.
Proof.
  induction a as [|d a IH]; simpl; [reflexivity|].
  rewrite IH, andb_assoc. reflexivity.
Qed.

Lemma rstrip_app_sep (c : ascii) (a : string) :
  PyStr.rstrip c (a ++ String c EmptyString) = PyStr.rstrip c a.
Proof.
  induction a as [|d a IH].
  - simpl. rewrite Ascii.eqb_refl. reflexivity.
  - simpl. rewrite IH, all_char_app. simpl.
    rewrite Ascii.eqb_refl, !andb_true_r. reflexivity.
Qed.

Lemma all_char_rstrip (c : ascii) (s : string) :
  PyStr.all_char c s = false -> PyStr.all_char c (PyStr.rstrip c s) = false.
Proof.
  induction s as [|d s IH]; [discriminate|].
  intros H. cbn [PyStr.rstrip]. rewrite H. simpl in *.
  destruct (Ascii.eqb d c); [|reflexivity]. simpl in *. auto.
Qed.

Lemma rstrip_idempotent (c : ascii) (s : string) :
  PyStr.rstrip c (PyStr.rstrip c s) = PyStr.rstrip c s.
Proof.
  induction s as [|d s IH]; [reflexivity|].
  cbn [PyStr.rstrip].
  destruct (PyStr.all_char c (String d s)) eqn:Hall; [reflexivity|].
  cbn [PyStr.rstrip]. rewrite IH.
  assert (Hs : PyStr.all_char c (String d (PyStr.rstrip c s)) = false).
  { simpl in *. destruct (Ascii.eqb d c); [|reflexivity]. simpl in *.
    apply all_char_rstrip. exact Hall. }
  rewrite Hs. reflexivity.
Qed.

Lemma head_part_join (a f : string) :
  PyStr.contains "/" f = false ->
  os_path.head_part (a ++ String "/" f) = a ++ "/".
Proof.
  intros Hf. induction a as [|c a IH]; simpl.
  - rewrite Hf. reflexivity.
  - rewrite contains_app. simpl. rewrite orb_true_r, IH. reflexivity.
Qed.

Lemma basename_join (a f : string) :
  PyStr.contains "/" f = false ->
  os_path.basename (a ++ String "/" f) = f.
Proof.
  intros Hf. induction a as [|c a IH]; simpl.
  - rewrite Hf. reflexivity.
  - rewrite contains_app. simpl. rewrite orb_true_r, IH. reflexivity.
Qed.

Lemma head_part_basename (p : string) :
  os_path.head_part p ++ os_path.basename p = p.
Proof.
  induction p as [|c p IH]; simpl; [reflexivity|].
  destruct (PyStr.contains "/" p).
  - change (String c (os_path.head_part p ++ os_path.basename p) = String c p).
    rewrite IH. reflexivity.
  - destruct (Ascii.eqb c "/") eqn:Hc; reflexivity.
Qed.

Lemma basename_no_slash (p : string) :
  PyStr.contains "/" (os_path.basename p) = false.
Proof.
  induction p as [|c p IH]; simpl; [reflexivity|].
  destruct (PyStr.contains "/" p) eqn:Hp; [exact IH|].
  destruct (Ascii.eqb c "/") eqn:Hc; [exact Hp|].
  simpl. rewrite Hc, Hp. reflexivity.
Qed.

(** A directory part that is not a run of slashes has no trailing slash. *)
Lemma dirname_no_trailing_slash (p : string) :
  PyStr.all_char "/" (os_path.dirname p) = false ->
  PyStr.rstrip "/" (os_path.dirname p) = os_path.dirname p.
Proof.
  unfold os_path.dirname.
  destruct (negb (os_path.head_part p =? "")%string
            && negb (PyStr.all_char "/" (os_path.head_part p))) eqn:Hc.
  - intros _. apply rstrip_idempotent.
  - intros H. rewrite H in Hc.
    destruct (os_path.head_part p); [discriminate H | discriminate Hc].
Qed.

Lemma dirname_join (d f : string) :
  PyStr.all_char "/" d = false ->
  PyStr.rstrip "/" d = d ->
  PyStr.contains "/" f = false ->
  os_path.dirname (d ++ String "/" f) = d.
Proof.
  intros Hd Hstrip Hf. unfold os_path.dirname.
  rewrite head_part_join by assumption.
  rewrite all_char_app, Hd. simpl.
  destruct d as [|c d]; [discriminate Hd|]. simpl (_ =? _)%string.
  cbn [negb andb]. rewrite rstrip_app_sep. exact Hstrip.
Qed.

Lemma split_nonempty (sep : ascii) (s : string) : PyStr.split sep s <> [].
Proof.
  destruct s as [|c s]; simpl; [discriminate|].
  destruct (Ascii.eqb c sep); [discriminate|].
  destruct (PyStr.split sep s); discriminate.
Qed.

Lemma split_app_sep (sep : ascii) (a b : string) :
  PyStr.split sep (a ++ String sep b)
  = (PyStr.split sep a ++ PyStr.split sep b)%list.
Proof.
  induction a as [|c a IH]; simpl.
  - rewrite Ascii.eqb_refl. reflexivity.
  - destruct (Ascii.eqb c sep); rewrite IH; [reflexivity|].
    destruct (PyStr.split sep a) eqn:Ha; [|reflexivity].
    exfalso. exact (split_nonempty _ _ Ha).
Qed.

Lemma last_app_nonempty {A} (l1 l2 : list A) (d : A) :
  l2 <> [] -> List.last (l1 ++ l2) d = List.last l2 d.
Proof.
  intros H. induction l1 as [|x l1 IH]; [reflexivity|].
  simpl. rewrite IH. destruct (l1 ++ l2)%list eqn:E; [|reflexivity].
  apply app_eq_nil in E. destruct E. contradiction.
Qed.

Lemma last_segment_app_dot (a e : string) :
  last_segment (a ++ String "." e) = last_segment e.
Proof.
  unfold last_segment. rewrite split_app_sep.
  apply last_app_nonempty, split_nonempty.
Qed.

Lemma contains_cut (c : ascii) (s : string) :
  PyStr.contains c s = true -> exists a b, s = a ++ String c b.
Proof.
  induction s as [|d s IH]; simpl; [discriminate|].
  destruct (Ascii.eqb d c) eqn:Hd.
  - intros _. apply Ascii.eqb_eq in Hd. subst.
    exists EmptyString, s. reflexivity.
  - simpl. intros H. destruct (IH H) as (a & b & ->).
    exists (String d a), b. reflexivity.
Qed.

Lemma split_segments_without (c sep : ascii) (s : string) :
  PyStr.contains c s = false ->
  Forall (fun seg => PyStr.contains c seg = false) (PyStr.split sep s).
Proof.
  induction s as [|d s IH]; simpl.
  - intros _. repeat constructor.
  - intros H. apply orb_false_elim in H as [Hd Hs].
    specialize (IH Hs).
    destruct (Ascii.eqb d sep).
    + constructor; [reflexivity | exact IH].
    + destruct (PyStr.split sep s) as [|seg segs].
      * repeat constructor. simpl. rewrite Hd. reflexivity.
      * inversion IH; subst. constructor; [|assumption].
        simpl. rewrite Hd. assumption.
Qed.

Lemma Forall_last {A} (P : A -> Prop) (l : list A) (d : A) :
  P d -> Forall P l -> P (List.last l d).
Proof.
  intros Hd H. induction H as [|x l Hx Hl IH]; [exact Hd|].
  simpl. destruct l; [exact Hx | exact IH].
Qed.

Lemma last_segment_without (c : ascii) (s : string) :
  PyStr.contains c s = false -> PyStr.contains c (last_segment s) = false.
Proof.
  intros H. unfold last_segment.
  apply Forall_last; [reflexivity|].
  apply split_segments_without. exact H.
Qed.

(** No segment of [s.split(sep)] contains the separator. *)
Lemma split_segments_sep_free (sep : ascii) (s : string) :
  Forall (fun seg => PyStr.contains sep seg = false) (PyStr.split sep s).
Proof.
  induction s as [|d s IH]; simpl.
  - repeat constructor.
  - destruct (Ascii.eqb d sep) eqn:Hd.
    + constructor; [reflexivity | exact IH].
    + destruct (PyStr.split sep s) as [|seg segs].
      * repeat constructor. simpl. rewrite Hd. reflexivity.
      * inversion IH; subst. constructor; [|assumption].
        simpl. rewrite Hd. assumption.
Qed.

Lemma last_segment_dot_free (s : string) :
  PyStr.contains "." (last_segment s) = false.
Proof.
  unfold last_segment. apply Forall_last; [reflexivity|].
  apply split_segments_sep_free.
Qed.

(** When the file name has a dot, the last segment of the whole path is the
    last segment of the file name. *)
Lemma last_segment_of_basename (p : string) :
  PyStr.contains "." (os_path.basename p) = true ->
  last_segment p = last_segment (os_path.basename p).
Proof.
  intros H. destruct (contains_cut _ _ H) as (a & b & Hb).
  rewrite <- (head_part_basename p) at 1. rewrite Hb.
  rewrite <- string_app_assoc, !last_segment_app_dot. reflexivity.
Qed.

Lemma lower_ascii_slash (c : ascii) :
  Ascii.eqb (PyStr.lower_ascii c) "/" = Ascii.eqb c "/".
Proof. destruct c as [[] [] [] [] [] [] [] []]; reflexivity. Qed.

Lemma lower_ascii_dot (c : ascii) :
  Ascii.eqb (PyStr.lower_ascii c) "." = Ascii.eqb c ".".
Proof. destruct c as [[] [] [] [] [] [] [] []]; reflexivity. Qed.

Lemma contains_slash_lower (s : string) :
  PyStr.contains "/" (PyStr.lower s) = PyStr.contains "/" s.
Proof.
  induction s as [|c s IH]; simpl; [reflexivity|].
  rewrite IH, lower_ascii_slash. reflexivity.
Qed.

Lemma contains_dot_lower (s : string) :
  PyStr.contains "." (PyStr.lower s) = PyStr.contains "." s.
Proof.
  induction s as [|c s IH]; simpl; [reflexivity|].
  rewrite IH, lower_ascii_dot. reflexivity.
Qed.

Lemma lower_ascii_idempotent (c : ascii) :
  PyStr.lower_ascii (PyStr.lower_ascii c) = PyStr.lower_ascii c.
Proof. destruct c as [[] [] [] [] [] [] [] []]; reflexivity. Qed.

Lemma lower_idempotent (s : string) :
  PyStr.lower (PyStr.lower s) = PyStr.lower s.
Proof.
  induction s as [|c s IH]; simpl; [reflexivity|].
  rewrite IH, lower_ascii_idempotent. reflexivity.
Qed.

(** ** The derived name *)

Lemma digit_char_is_digit (n : N) :
  strptime.is_digit (strftime.digit_char n) = true
  /\ strptime.digit_value (strftime.digit_char n) = n mod 10.
Proof.
  unfold strftime.digit_char.
  assert (H : n mod 10 < 10) by (apply N.mod_lt; discriminate).
  destruct (n mod 10) as [|p]; [split; reflexivity|].
  do 4 (try destruct p as [p|p|]); try (split; reflexivity); lia.
Qed.

Lemma digit_char_not_slash (n : N) :
  Ascii.eqb (strftime.digit_char n) "/" = false.
Proof.
  unfold strftime.digit_char.
  assert (H : n mod 10 < 10) by (apply N.mod_lt; discriminate).
  destruct (n mod 10) as [|p]; [reflexivity|].
  do 4 (try destruct p as [p|p|]); try reflexivity; lia.
Qed.

Lemma uint_text_without_slash (d : Decimal.uint) :
  PyStr.contains "/" (NilEmpty.string_of_uint d) = false.
Proof. induction d; simpl; auto. Qed.

Lemma str_without_slash (n : N) : PyStr.contains "/" (PyStr.str n) = false.
Proof.
  unfold PyStr.str, NilZero.string_of_uint.
  destruct (N.to_uint n); try reflexivity; apply uint_text_without_slash.
Qed.

Lemma year_fields_agree_at (count : nat) :
  forall n m : N,
    year_fields_agree count n = true ->
    n <= m -> m < n + N.of_nat count ->
    strftime.year_field m = strftime.pad4 m.
Proof.
  induction count as [|count IH]; intros n m Hall Hlo Hhi; [lia|].
  cbn [year_fields_agree] in Hall. apply andb_prop in Hall as [Hn Hrest].
  destruct (N.eq_dec n m) as [<-|Hne].
  - apply String.eqb_eq. exact Hn.
  - apply (IH (N.succ n) m Hrest); lia.
Qed.

(** From 1000 to 9999 the year printed by %Y has exactly four digits. *)
Lemma year_field_four_digits (n : N) :
  1000 <= n <= 9999 -> strftime.year_field n = strftime.pad4 n.
Proof.
  intros [Hlo Hhi].
  apply (year_fields_agree_at (N.to_nat 9000) 1000 n);
    [vm_compute; reflexivity | lia | rewrite N2Nat.id; lia].
Qed.

Local Opaque strptime.is_digit strptime.digit_value strftime.digit_char.

Lemma stamp_without_slash (dt : datetime) :
  PyStr.contains "/" (get_filename_from_datetime dt) = false.
Proof.
  unfold get_filename_from_datetime, strftime.year_field, strftime.pad2.
  rewrite contains_app, str_without_slash.
  simpl. rewrite !digit_char_not_slash. reflexivity.
Qed.

Lemma stamp_has_shape (dt : datetime) :
  1000 <= year dt <= 9999 ->
  stamp_shape (get_filename_from_datetime dt) = true.
Proof.
  intros Hyear.
  unfold get_filename_from_datetime. rewrite year_field_four_digits by exact Hyear.
  unfold strftime.pad4, strftime.pad2, stamp_shape.
  simpl. rewrite !(proj1 (digit_char_is_digit _)). reflexivity.
Qed.

Lemma two_digits (n : N) : n <= 99 -> 10 * ((n / 10) mod 10) + n mod 10 = n.
Proof.
  intros H. rewrite (N.mod_small (n / 10) 10).
  - symmetry. apply N.div_mod. discriminate.
  - apply N.Div0.div_lt_upper_bound. lia.
Qed.

Lemma four_digits (n : N) :
  n <= 9999 ->
  10 * (10 * (10 * ((n / 1000) mod 10) + (n / 100) mod 10) + (n / 10) mod 10)
  + n mod 10 = n.
Proof.
  intros H.
  assert (H1 : n / 10 = 10 * (n / 100) + (n / 10) mod 10).
  { replace 100 with (10 * 10) by reflexivity.
    rewrite <- N.Div0.div_div. apply N.div_mod. discriminate. }
  assert (H2 : n / 100 = 10 * (n / 1000) + (n / 100) mod 10).
  { replace 1000 with (100 * 10) by reflexivity.
    rewrite <- N.Div0.div_div. apply N.div_mod. discriminate. }
  assert (H3 : (n / 1000) mod 10 = n / 1000).
  { apply N.mod_small, N.Div0.div_lt_upper_bound. lia. }
  pose proof (N.div_mod n 10 ltac:(discriminate)) as H0.
  lia.
Qed.

(** For a real date and time the name spells out exactly its fields. *)
Lemma stamp_reads_back (dt : datetime) :
  strptime.valid dt = true -> 1000 <= year dt ->
  read_stamp (get_filename_from_datetime dt) = dt.
Proof.
  intros Hv Hyear. unfold strptime.valid in Hv.
  repeat (apply andb_prop in Hv as [Hv ?]).
  repeat match goal with H : (_ <=? _) = true |- _ => apply N.leb_le in H end.
  assert (Hday : day dt <= 99).
  { assert (strptime.days_in_month (year dt) (month dt) <= 31).
    { unfold strptime.days_in_month.
      repeat match goal with |- context [if ?b then _ else _] => destruct b end;
        lia. }
    lia. }
  unfold get_filename_from_datetime.
  rewrite year_field_four_digits by lia.
  destruct dt as [Y m d hh mm ss]; simpl in *.
  unfold strftime.pad4, strftime.pad2, read_stamp.
  unfold decimal_value. simpl.
  rewrite !(proj2 (digit_char_is_digit _)).
  rewrite !N.mul_0_r, !N.add_0_l.
  rewrite four_digits, !two_digits by lia. reflexivity.
Qed.

Local Transparent strptime.is_digit strptime.digit_value strftime.digit_char.

(** The derived path, taken apart: for a source with a real directory part
    and a dot in its file name. *)
Lemma get_new_filename_parts (file : gmap string string) (src : string)
    (dt : datetime) :
  file !! "SourceFile" = Some src ->
  PyStr.all_char "/" (os_path.dirname src) = false ->
  PyStr.contains "." (os_path.basename src) = true ->
  let name := get_filename_from_datetime dt ++ "."
              ++ PyStr.lower (last_segment (os_path.basename src)) in
  get_new_filename file dt = Return (os_path.dirname src ++ "/" ++ name)
  /\ os_path.dirname (os_path.dirname src ++ "/" ++ name) = os_path.dirname src
  /\ os_path.basename (os_path.dirname src ++ "/" ++ name) = name.
Proof.
  intros Hsrc Hdir Hdot name.
  assert (Hname : PyStr.contains "/" name = false).
  { unfold name. rewrite !contains_app, stamp_without_slash.
    rewrite contains_slash_lower, last_segment_without
      by apply basename_no_slash.
    reflexivity. }
  change (os_path.dirname src ++ "/" ++ name)
    with (os_path.dirname src ++ String "/" name).
  split; [|split].
  - unfold get_new_filename, getitem. rewrite Hsrc.
    unfold mbind, outcome_bind, mret, outcome_ret.
    rewrite last_segment_of_basename by assumption. reflexivity.
  - apply dirname_join; [assumption | | assumption].
    apply dirname_no_trailing_slash. assumption.
  - apply basename_join. assumption.
Qed.

(** Where the derivation does what it is meant to: when the source path has
    a directory part that is not empty and not a run of slashes, its file
    name contains a dot and the year has four digits, the derived path lies
    in the same directory and its file name is the timestamp in the shape
    YYYYMMDD_HHMMSS (spelling out exactly the fields of dt), a dot, and the
    lowercased extension of the source. *)
Lemma new_filename_is_stamp_in_same_directory
    (file : gmap string string) (src : string) (dt : datetime)
    (Hsrc : file !! "SourceFile" = Some src)
    (Hdir : PyStr.all_char "/" (os_path.dirname src) = false)
    (Hdot : PyStr.contains "." (os_path.basename src) = true)
    (Hvalid : strptime.valid dt = true)
    (Hyear : 1000 <= year dt) :
  exists target,
    get_new_filename file dt = Return target
    /\ os_path.dirname target = os_path.dirname src
    /\ os_path.basename target
       = get_filename_from_datetime dt ++ "."
         ++ PyStr.lower (last_segment (os_path.basename src))
    /\ stamp_shape (get_filename_from_datetime dt) = true
    /\ read_stamp (get_filename_from_datetime dt) = dt.
Proof.
  destruct (get_new_filename_parts file src dt Hsrc Hdir Hdot)
    as (Hnew & Hd & Hb).
  eexists. split; [exact Hnew|].
  split; [exact Hd|]. split; [exact Hb|].
  split; [apply stamp_has_shape | apply stamp_reads_back; assumption].
  split; [exact Hyear|].
  pose proof Hvalid as Hv. unfold strptime.valid in Hv.
  repeat (apply andb_prop in Hv as [Hv ?]).
  apply N.leb_le. assumption.
Qed.

(** The scenario of the specification: a JPEG taken on 2021:05:11 12:34:56
    gets the name 20210511_123456.jpg in its own directory. *)
Lemma jpeg_scenario :
  get_datetime "2021:05:11 12:34:56" = Return (mk_datetime 2021 5 11 12 34 56)
  /\ exists target,
       get_new_filename
         (Scenario.record_of ".\images/IMG_0001.JPG" "2021:05:11 12:34:56")
         (mk_datetime 2021 5 11 12 34 56) = Return target
       /\ os_path.dirname target = ".\images"
       /\ os_path.basename target = "20210511_123456.jpg"
       /\ stamp_shape "20210511_123456" = true
       /\ read_stamp "20210511_123456" = mk_datetime 2021 5 11 12 34 56.
Proof.
  split; [reflexivity|].
  exact (new_filename_is_stamp_in_same_directory
           (Scenario.record_of ".\images/IMG_0001.JPG" "2021:05:11 12:34:56")
           ".\images/IMG_0001.JPG" (mk_datetime 2021 5 11 12 34 56)
           eq_refl eq_refl eq_refl eq_refl ltac:(simpl; lia)).
Defined.

(** A file name without a dot, which [list_files] does enumerate: the text
    after the last dot of the whole path is taken for the extension, and the
    derived path lies in another directory. *)
Lemma dotless_name_leaves_its_directory :
  let file := Scenario.record_of ".\images/PNG" "2021:05:11 12:34:56" in
  let dt := mk_datetime 2021 5 11 12 34 56 in
  is_multimedia "PNG" = true
  /\ get_new_filename file dt = Return ".\images/20210511_123456.\images/png"
  /\ os_path.dirname ".\images/PNG" = ".\images"
  /\ os_path.dirname ".\images/20210511_123456.\images/png"
     = ".\images/20210511_123456.\images"
  /\ ~ (exists target,
          get_new_filename file dt = Return target
          /\ os_path.dirname target = os_path.dirname ".\images/PNG"
          /\ os_path.basename target = "20210511_123456.png").
Proof.
  intros file dt. repeat split; try reflexivity.
  intros (target & Hnew & Hdir & _).
  vm_compute in Hnew. injection Hnew as <-. vm_compute in Hdir. discriminate.
Qed.

(** C8: for a file named PNG, which [list_files] enumerates, the derived
    path does not keep the directory and its file name is not the timestamp
    plus extension: the text after the last dot of the whole path is taken
    for the extension, the derived path lies in a directory that does not
    exist, and the run stops at os.rename with FileNotFoundError, the file
    still under its old name. *)
Theorem dotless_name_is_renamed_into_missing_directory :
  let file := Scenario.record_of ".\images/PNG" "2021:05:11 12:34:56" in
  let dt := mk_datetime 2021 5 11 12 34 56 in
  let w := Scenario.start {[ ".\images/PNG" := Scenario.photo_a ]} in
  let run := main Scenario.walk_png Scenario.same_second 10 w in
  list_files Scenario.walk_png ".\images" = [".\images/PNG"]
  /\ get_datetime "2021:05:11 12:34:56" = Return dt
  /\ get_new_filename file dt = Return ".\images/20210511_123456.\images/png"
  /\ os_path.dirname ".\images/PNG" = ".\images"
  /\ os_path.dirname ".\images/20210511_123456.\images/png"
     = ".\images/20210511_123456.\images"
  /\ os_path.basename ".\images/20210511_123456.\images/png" = "png"
  /\ run.2 = Raise FileNotFoundError
  /\ map_to_list (fs run.1) = [(".\images/PNG", Scenario.photo_a)]
  /\ trace run.1 =
       [ EvLog "Good files:"; EvLog "Old filename: .\images/PNG";
         EvLog "Original image date: 2021:05:11 12:34:56";
         EvExists ".\images/20210511_123456.\images/png" false;
         EvExists ".\images/PNG" true;
         EvRename ".\images/PNG" ".\images/20210511_123456.\images/png" ].
Proof. intros file dt w run. repeat split; vm_compute; reflexivity. Qed.

(** The derived path is its own derived path. *)
Lemma derived_path_derives_itself (file : gmap string string) (src : string)
    (dt : datetime) :
  file !! "SourceFile" = Some src ->
  PyStr.all_char "/" (os_path.dirname src) = false ->
  PyStr.contains "." (os_path.basename src) = true ->
  exists target,
    get_new_filename file dt = Return target
    /\ get_new_filename (<["SourceFile" := target]> file) dt = Return target.
Proof.
  intros Hsrc Hdir Hdot.
  destruct (get_new_filename_parts file src dt Hsrc Hdir Hdot)
    as (Hnew & Hd & Hb).
  eexists. split; [exact Hnew|].
  unfold get_new_filename at 1. unfold getitem.
  rewrite lookup_insert_eq. unfold mbind, outcome_bind, mret, outcome_ret.
  rewrite Hd. do 3 f_equal.
  set (ext := PyStr.lower (last_segment (os_path.basename src))).
  assert (Hext : PyStr.contains "." ext = false).
  { unfold ext. rewrite contains_dot_lower. apply last_segment_dot_free. }
  change (os_path.dirname src ++ "/" ++ get_filename_from_datetime dt ++ "." ++ ext)
    with (os_path.dirname src ++ "/" ++ get_filename_from_datetime dt
          ++ String "." ext).
  rewrite <- !string_app_assoc, last_segment_app_dot.
  rewrite last_segment_dotless by exact Hext.
  unfold ext. rewrite lower_idempotent. reflexivity.
Qed.

(** X9: Deriving the name again from a derived path gives the same path. *)
Lemma get_new_filename_fixed_point (file : gmap string string) (src : string)
    (dt : datetime) :
  file !! "SourceFile" = Some src ->
  PyStr.all_char "/" (os_path.dirname src) = false ->
  PyStr.contains "." (os_path.basename src) = true ->
  exists target,
    get_new_filename file dt = Return target
    /\ get_new_filename (<["SourceFile" := target]> file) dt = Return target.
Proof.
  exact (derived_path_derives_itself file src dt).
Qed.

(** ** Running the script again *)

Lemma only_logged_refl (w : world) : only_logged w w.
Proof.
  repeat split. exists []. simpl. rewrite app_nil_r. reflexivity.
Qed.

Lemma only_logged_trans (w1 w2 w3 : world) :
  only_logged w1 w2 -> only_logged w2 w3 -> only_logged w1 w3.
Proof.
  intros (Hf1 & Hs1 & l1 & Ht1) (Hf2 & Hs2 & l2 & Ht2).
  split; [congruence|]. split; [congruence|].
  exists (l1 ++ l2)%list. rewrite Ht2, Ht1, map_app, app_assoc. reflexivity.
Qed.

Lemma only_logged_log (line : string) (w : world) :
  only_logged w (emit (EvLog line) w).
Proof. repeat split. exists [line]. reflexivity. Qed.

Lemma only_logged_log_after (line : string) (w w' : world) :
  only_logged w w' -> only_logged w (emit (EvLog line) w').
Proof.
  intros H. eapply only_logged_trans; [exact H | apply only_logged_log].
Qed.

Lemma rename_to_same_name (fuel : nat) (path : string) (w : world) :
  exists w', rename_file_if_necessary fuel path path w = (w', Return tt)
             /\ only_logged w w'.
Proof.
  unfold rename_file_if_necessary. rewrite String.eqb_refl.
  unfold mbind, M_bind, logging_info. eexists. split; [reflexivity|].
  apply only_logged_log_after, only_logged_log.
Qed.

Lemma valid_files_loop_settled (fuel : nat) (files : list (gmap string string)) :
  Forall settled files ->
  forall (new_filename : option string) (w : world),
  exists w', valid_files_loop fuel files new_filename w = (w', Return tt)
             /\ only_logged w w'.
Proof.
  induction 1 as [|file files Hfile _ IH]; intros new_filename w.
  - exists w. split; [reflexivity | apply only_logged_refl].
  - destruct Hfile as (src & date & dt & Hsrc & Hdate & Hdt & Hnew).
    cbn [valid_files_loop].
    unfold mbind at 1, M_bind at 1, pure at 1, getitem at 1. rewrite Hsrc.
    unfold mbind at 1, M_bind at 1, try_except_ValueError.
    unfold mbind at 1, M_bind at 1, pure at 1, getitem at 1. rewrite Hdate.
    unfold mbind at 1, M_bind at 1, pure at 1. rewrite Hdt.
    unfold mbind at 1, M_bind at 1, pure at 1. rewrite Hnew.
    unfold mret at 1, M_ret at 1.
    unfold mbind at 1, M_bind at 1, logging_info at 1.
    unfold mbind at 1, M_bind at 1, pure at 1, getitem at 1. rewrite Hdate.
    unfold mbind at 1, M_bind at 1, logging_info at 1.
    unfold mbind at 1, M_bind at 1, read_local, mret at 1, M_ret at 1.
    unfold mbind at 1, M_bind at 1.
    match goal with
    | |- context [rename_file_if_necessary fuel src src ?w0] =>
        destruct (rename_to_same_name fuel src w0) as (w1 & -> & Hw1);
        destruct (IH (Some src) w1) as (w2 & -> & Hw2)
    end.
    exists w2. split; [reflexivity|].
    eapply only_logged_trans; [|exact Hw2].
    eapply only_logged_trans; [|exact Hw1].
    apply only_logged_log_after, only_logged_log.
Qed.

Lemma invalid_files_loop_without_dates (fuel : nat)
    (files : list (gmap string string)) :
  Forall no_fallback_dates files ->
  forall w : world,
  exists w', invalid_files_loop fuel files w = (w', Return tt)
             /\ only_logged w w'.
Proof.
  induction 1 as [|file files Hfile _ IH]; intros w.
  - exists w. split; [reflexivity | apply only_logged_refl].
  - destruct Hfile as ([src Hsrc] & Hm & Hc).
    cbn [invalid_files_loop]. rewrite Hm, Hc. cbn [fmap option_fmap option_map].
    unfold rename_file_if_any_date_metadata_exists.
    unfold mbind at 1, M_bind at 1.
    unfold mbind at 1, M_bind at 1, pure at 1, getitem at 1. rewrite Hsrc.
    unfold logging_info at 1.
    unfold mbind at 1, M_bind at 1, logging_info at 1.
    match goal with
    | |- context [invalid_files_loop fuel files ?w0] =>
        destruct (IH w0) as (w2 & -> & Hw2)
    end.
    exists w2. split; [reflexivity|].
    eapply only_logged_trans; [|exact Hw2].
    apply only_logged_log_after, only_logged_log.
Qed.

(** A run in which every record either carries a usable
    EXIF:DateTimeOriginal and already has the name derived from it, or has
    neither fallback date, ends normally and changes nothing: no file is
    touched and only log lines are produced. *)
Lemma run_over_settled_files_changes_nothing
    (os_walk : string -> list (string * list string * list string))
    (get_metadata : list string -> list (gmap string string))
    (fuel : nat) (w : world)
    (Hsettled :
       Forall (fun file =>
                 (has_datetimeoriginal file = true /\ settled file)
                 \/ (has_datetimeoriginal file = false
                     /\ no_fallback_dates file))
              (get_metadata (list_files os_walk ".\images"))) :
  exists w', main os_walk get_metadata fuel w = (w', Return tt)
             /\ only_logged w w'.
Proof.
  unfold main, find_files_with_datetimeoriginal_metadata.
  rewrite classify_accumulates. cbn [app].
  set (records := get_metadata (list_files os_walk ".\images")) in *.
  assert (Hvalid : Forall settled (List.filter has_datetimeoriginal records)).
  { apply List.Forall_forall. intros file Hin.
    apply List.filter_In in Hin as [Hin Hhas].
    rewrite List.Forall_forall in Hsettled.
    destruct (Hsettled file Hin) as [[_ H]|[H _]]; [exact H | congruence]. }
  assert (Hinvalid : Forall no_fallback_dates
            (List.filter (fun d => negb (has_datetimeoriginal d)) records)).
  { apply List.Forall_forall. intros file Hin.
    apply List.filter_In in Hin as [Hin Hhas].
    apply negb_true_iff in Hhas.
    rewrite List.Forall_forall in Hsettled.
    destruct (Hsettled file Hin) as [[H _]|[_ H]]; [congruence | exact H]. }
  unfold mbind at 1, M_bind at 1, logging_info at 1.
  unfold mbind at 1, M_bind at 1.
  destruct (valid_files_loop_settled fuel _ Hvalid None
              (emit (EvLog "Good files:") w)) as (w1 & -> & Hw1).
  unfold mbind at 1, M_bind at 1, logging_info at 1.
  destruct (invalid_files_loop_without_dates fuel _ Hinvalid
              (emit (EvLog "Error files:") w1)) as (w2 & -> & Hw2).
  exists w2. split; [reflexivity|].
  eapply only_logged_trans; [apply only_logged_log|].
  eapply only_logged_trans; [exact Hw1|].
  eapply only_logged_trans; [apply only_logged_log | exact Hw2].
Qed.

(** A directory holding one photo that already has its derived name: the
    run ends normally and only logs. *)
Lemma settled_directory_run :
  Forall (fun file =>
            (has_datetimeoriginal file = true /\ settled file)
            \/ (has_datetimeoriginal file = false /\ no_fallback_dates file))
         (Scenario.same_second
            (list_files (fun _ => [(".\images", [], ["20210511_123456.jpg"])])
               ".\images"))
  /\ exists w',
       main (fun _ => [(".\images", [], ["20210511_123456.jpg"])])
         Scenario.same_second 0
         (Scenario.start {[ Scenario.stamp := Scenario.photo_a ]})
       = (w', Return tt)
       /\ only_logged (Scenario.start {[ Scenario.stamp := Scenario.photo_a ]}) w'.
Proof.
  assert (H : Forall (fun file =>
            (has_datetimeoriginal file = true /\ settled file)
            \/ (has_datetimeoriginal file = false /\ no_fallback_dates file))
         (Scenario.same_second
            (list_files (fun _ => [(".\images", [], ["20210511_123456.jpg"])])
               ".\images"))).
  { constructor; [|constructor]. left. split; [reflexivity|].
    exists Scenario.stamp, "2021:05:11 12:34:56", (mk_datetime 2021 5 11 12 34 56).
    repeat split; reflexivity. }
  split; [exact H|].
  exact (run_over_settled_files_changes_nothing
           (fun _ => [(".\images", [], ["20210511_123456.jpg"])])
           Scenario.same_second 0
           (Scenario.start {[ Scenario.stamp := Scenario.photo_a ]}) H).
Defined.










(** * Further properties *)

(** ** Parsing dates *)

Lemma first_match_bind {A B} (p : strptime.rx A) (f : A -> strptime.rx B)
    (s : string) (a : A) (r : string) (b : B) (r' : string) :
  first_match p s a r -> first_match (f a) r b r' ->
  first_match (strptime.rx_bind p f) s b r'.
Proof.
  intros [tl Hp] [tl' Hf]. unfold first_match, strptime.rx_bind.
  rewrite Hp. simpl. rewrite Hf. eexists. reflexivity.
Qed.

Lemma first_match_ret {A} (a : A) (s : string) :
  first_match (strptime.rx_ret a) s a s.
Proof. exists []. reflexivity. Qed.

Lemma first_match_lit (c : ascii) (r : string) :
  first_match (strptime.lit c) (String c r) tt r.
Proof. exists []. simpl. rewrite Ascii.eqb_refl. reflexivity. Qed.

Lemma digit_char_not_space (n : N) :
  strptime.is_space (strftime.digit_char n) = false.
Proof.
  unfold strftime.digit_char.
  assert (H : n mod 10 < 10) by (apply N.mod_lt; discriminate).
  destruct (n mod 10) as [|p]; [reflexivity|].
  do 4 (try destruct p as [p|p|]); try reflexivity; lia.
Qed.

Lemma first_match_digit (n : N) (r : string) :
  first_match strptime.d (String (strftime.digit_char n) r) (n mod 10) r.
Proof.
  exists []. unfold strptime.d, strptime.range.
  destruct (digit_char_is_digit n) as [-> ->].
  assert (H : n mod 10 < 10) by (apply N.mod_lt; discriminate).
  rewrite (proj2 (N.leb_le 0 _) (N.le_0_l _)).
  rewrite (proj2 (N.leb_le _ 9) (proj1 (N.lt_succ_r _ 9) H)).
  reflexivity.
Qed.

Lemma first_match_year (y : N) (r : string) :
  y <= 9999 -> first_match strptime.rx_Y (strftime.pad4 y ++ r) y r.
Proof.
  intros Hy. unfold strptime.rx_Y, strftime.pad4.
  change (String ?a (String ?b (String ?c (String ?e EmptyString))) ++ r)
    with (String a (String b (String c (String e r)))).
  repeat (eapply first_match_bind; [apply first_match_digit|]).
  rewrite <- (four_digits y Hy) at 5.
  replace (1000 * ((y / 1000) mod 10) + 100 * ((y / 100) mod 10)
           + 10 * ((y / 10) mod 10) + y mod 10)
    with (10 * (10 * (10 * ((y / 1000) mod 10) + (y / 100) mod 10)
                + (y / 10) mod 10) + y mod 10) by lia.
  apply first_match_ret.
Qed.

Lemma first_match_spaces (n : N) (r : string) :
  first_match strptime.spaces_plus
    (String " " (String (strftime.digit_char n) r)) tt
    (String (strftime.digit_char n) r).
Proof.
  exists []. unfold strptime.spaces_plus.
  change (strptime.is_space " ") with true. cbv iota.
  cbn [strptime.spaces_star]. rewrite digit_char_not_space. reflexivity.
Qed.

Lemma first_match_month_nat (n : nat) (r : string) :
  (1 <= n <= 12)%nat ->
  first_match strptime.rx_m (strftime.pad2 (N.of_nat n) ++ r) (N.of_nat n) r.
Proof.
  intros Hn. unfold first_match.
  do 13 (destruct n as [|n]; [try lia; vm_compute; eexists; reflexivity|]).
  lia.
Qed.

Lemma first_match_day_nat (n : nat) (r : string) :
  (1 <= n <= 31)%nat ->
  first_match strptime.rx_d (strftime.pad2 (N.of_nat n) ++ r) (N.of_nat n) r.
Proof.
  intros Hn. unfold first_match.
  do 32 (destruct n as [|n]; [try lia; vm_compute; eexists; reflexivity|]).
  lia.
Qed.

Lemma first_match_hour_nat (n : nat) (r : string) :
  (n <= 23)%nat ->
  first_match strptime.rx_H (strftime.pad2 (N.of_nat n) ++ r) (N.of_nat n) r.
Proof.
  intros Hn. unfold first_match.
  do 24 (destruct n as [|n]; [vm_compute; eexists; reflexivity|]).
  lia.
Qed.

Lemma first_match_minute_nat (n : nat) (r : string) :
  (n <= 59)%nat ->
  first_match strptime.rx_M (strftime.pad2 (N.of_nat n) ++ r) (N.of_nat n) r.
Proof.
  intros Hn. unfold first_match.
  do 60 (destruct n as [|n]; [vm_compute; eexists; reflexivity|]).
  lia.
Qed.

Lemma first_match_second_nat (n : nat) (r : string) :
  (n <= 59)%nat ->
  first_match strptime.rx_S (strftime.pad2 (N.of_nat n) ++ r) (N.of_nat n) r.
Proof.
  intros Hn. unfold first_match.
  do 60 (destruct n as [|n]; [vm_compute; eexists; reflexivity|]).
  lia.
Qed.

Lemma first_match_month (n : N) (r : string) :
  1 <= n <= 12 ->
  first_match strptime.rx_m (strftime.pad2 n ++ r) n r.
Proof.
  intros Hn. rewrite <- (N2Nat.id n). apply first_match_month_nat. lia.
Qed.

Lemma first_match_day (n : N) (r : string) :
  1 <= n <= 31 ->
  first_match strptime.rx_d (strftime.pad2 n ++ r) n r.
Proof.
  intros Hn. rewrite <- (N2Nat.id n). apply first_match_day_nat. lia.
Qed.

Lemma first_match_hour (n : N) (r : string) :
  n <= 23 ->
  first_match strptime.rx_H (strftime.pad2 n ++ r) n r.
Proof.
  intros Hn. rewrite <- (N2Nat.id n). apply first_match_hour_nat. lia.
Qed.

Lemma first_match_minute (n : N) (r : string) :
  n <= 59 ->
  first_match strptime.rx_M (strftime.pad2 n ++ r) n r.
Proof.
  intros Hn. rewrite <- (N2Nat.id n). apply first_match_minute_nat. lia.
Qed.

Lemma first_match_second (n : N) (r : string) :
  n <= 59 ->
  first_match strptime.rx_S (strftime.pad2 n ++ r) n r.
Proof.
  intros Hn. rewrite <- (N2Nat.id n). apply first_match_second_nat. lia.
Qed.

Lemma valid_bounds (dt : datetime) :
  strptime.valid dt = true ->
  1 <= year dt <= 9999 /\ 1 <= month dt <= 12 /\ 1 <= day dt <= 31
  /\ hour dt <= 23 /\ minute dt <= 59 /\ second dt <= 59.
Proof.
  intros Hv. unfold strptime.valid in Hv.
  repeat (apply andb_prop in Hv as [Hv ?]).
  repeat match goal with H : (_ <=? _) = true |- _ => apply N.leb_le in H end.
  assert (strptime.days_in_month (year dt) (month dt) <= 31).
  { unfold strptime.days_in_month.
    repeat match goal with |- context [if ?b then _ else _] => destruct b end;
      lia. }
  lia.
Qed.

(** The pattern reads the canonical text of a real date and time field by
    field and stops right after the seconds. *)
Lemma pattern_first_match (dt : datetime) (t : string) :
  strptime.valid dt = true ->
  first_match strptime.pattern (exif_form dt ++ t)
    (year dt, month dt, day dt, hour dt, minute dt, second dt) t.
Proof.
  intros Hv. apply valid_bounds in Hv.
  destruct dt as [Y m d hh mm ss]. simpl in Hv.
  cbn [year month day hour minute second].
  change (exif_form (mk_datetime Y m d hh mm ss) ++ t)
    with (strftime.pad4 Y ++ String ":" (strftime.pad2 m ++ String ":"
            (strftime.pad2 d ++ String " " (strftime.pad2 hh ++ String ":"
              (strftime.pad2 mm ++ String ":" (strftime.pad2 ss ++ t)))))).
  unfold strptime.pattern.
  eapply first_match_bind; [apply first_match_year; lia|].
  eapply first_match_bind; [apply first_match_lit|].
  eapply first_match_bind; [apply first_match_month; lia|].
  eapply first_match_bind; [apply first_match_lit|].
  eapply first_match_bind; [apply first_match_day; lia|].
  eapply first_match_bind; [apply first_match_spaces|].
  eapply first_match_bind; [apply first_match_hour; lia|].
  eapply first_match_bind; [apply first_match_lit|].
  eapply first_match_bind; [apply first_match_minute; lia|].
  eapply first_match_bind; [apply first_match_lit|].
  eapply first_match_bind; [apply first_match_second; lia|].
  apply first_match_ret.
Qed.

(** What [get_datetime] answers on the canonical text of a real date and
    time followed by anything. *)
Lemma get_datetime_on_canonical_prefix (dt : datetime) (t : string) :
  strptime.valid dt = true ->
  get_datetime (exif_form dt ++ t)
  = match t with EmptyString => Return dt | _ => Raise ValueError end.
Proof.
  intros Hvalid.
  destruct (pattern_first_match dt t Hvalid) as [tl Hp].
  unfold get_datetime, strptime.parse. rewrite Hp.
  destruct t; [|reflexivity].
  destruct dt as [Y m d hh mm ss]. cbn [year month day hour minute second] in *.
  rewrite Hvalid. reflexivity.
Qed.

Lemma exif_form_app_empty (dt : datetime) : exif_form dt ++ "" = exif_form dt.
Proof. destruct dt. reflexivity. Qed.

(** X5: The canonical text of every real date and time parses, and parses to
    that date and time. *)
Theorem get_datetime_reads_canonical_text (dt : datetime)
    (Hvalid : strptime.valid dt = true) :
  get_datetime (exif_form dt) = Return dt.
Proof.
  rewrite <- (exif_form_app_empty dt) at 1.
  apply (get_datetime_on_canonical_prefix dt EmptyString Hvalid).
Qed.

(** X6: Anything after the seconds, whatever it is, makes the parse fail. *)
Theorem get_datetime_rejects_text_after_seconds (dt : datetime) (t : string)
    (Hvalid : strptime.valid dt = true) (Hmore : t <> EmptyString) :
  get_datetime (exif_form dt ++ t) = Raise ValueError.
Proof.
  rewrite get_datetime_on_canonical_prefix by exact Hvalid.
  destruct t; [contradiction | reflexivity].
Qed.

Lemma digit_char_not_plus (n : N) :
  Ascii.eqb (strftime.digit_char n) "+" = false.
Proof.
  unfold strftime.digit_char.
  assert (H : n mod 10 < 10) by (apply N.mod_lt; discriminate).
  destruct (n mod 10) as [|p]; [reflexivity|].
  do 4 (try destruct p as [p|p|]); try reflexivity; lia.
Qed.

Lemma exif_form_without_plus (dt : datetime) :
  PyStr.contains "+" (exif_form dt) = false.
Proof.
  unfold exif_form, strftime.pad4, strftime.pad2.
  simpl. rewrite !digit_char_not_plus. reflexivity.
Qed.

(** X4: for every real date and time written in the canonical form and
    followed by "+" and any text, cutting the time zone gives back the
    canonical form, which parses to that date and time. *)
Theorem plus_zone_is_cut_and_date_parses (dt : datetime) (tz : string)
    (Hvalid : strptime.valid dt = true) :
  cut_out_time_zone (exif_form dt ++ String "+" tz) = exif_form dt
  /\ get_datetime (cut_out_time_zone (exif_form dt ++ String "+" tz))
     = Return dt.
Proof.
  assert (Hcut : cut_out_time_zone (exif_form dt ++ String "+" tz)
                 = exif_form dt)
    by (apply cut_out_time_zone_plus_suffix, exif_form_without_plus).
  split; [exact Hcut|].
  rewrite Hcut, <- (exif_form_app_empty dt) at 1.
  apply (get_datetime_on_canonical_prefix dt EmptyString Hvalid).
Qed.

Lemma split1_head_cut (sep : ascii) (s : string) :
  PyStr.contains sep (List.hd EmptyString (PyStr.split1 sep s)) = false
  /\ exists t, s = List.hd EmptyString (PyStr.split1 sep s) ++ t
               /\ (t = EmptyString \/ exists u, t = String sep u).
Proof.
  induction s as [|c s [IHc (t & IHs & IHt)]]; simpl.
  - split; [reflexivity|]. exists EmptyString. split; [reflexivity | left; reflexivity].
  - destruct (Ascii.eqb c sep) eqn:Hc.
    + apply Ascii.eqb_eq in Hc. subst c. simpl.
      split; [reflexivity|]. exists (String sep s).
      split; [reflexivity | right; eauto].
    + destruct (PyStr.split1 sep s) as [|seg segs] eqn:Hsplit; simpl in *.
      * rewrite Hc. split; [reflexivity|]. exists t.
        split; [rewrite IHs at 1; reflexivity | exact IHt].
      * rewrite Hc, IHc. split; [reflexivity|]. exists t.
        split; [rewrite IHs at 1; reflexivity | exact IHt].
Qed.

(** X3: [cut_out_time_zone] returns the text before the first "+": the result
    has no "+", the input is the result followed by nothing or by a tail that
    starts with "+", and cutting twice is cutting once. *)
Theorem cut_out_time_zone_keeps_text_before_first_plus (s : string) :
  PyStr.contains "+" (cut_out_time_zone s) = false
  /\ cut_out_time_zone (cut_out_time_zone s) = cut_out_time_zone s
  /\ exists t, s = cut_out_time_zone s ++ t
               /\ (t = EmptyString \/ exists u, t = String "+" u).
Proof.
  destruct (split1_head_cut "+" s) as [Hfree Hcut].
  split; [exact Hfree|]. split; [|exact Hcut].
  apply cut_out_time_zone_without_plus. exact Hfree.
Qed.

(** X7: whatever string [get_datetime] accepts, the date and time it returns
    is a real one, and when its year has four digits (1000 or later) the
    file name made from it has the shape YYYYMMDD_HHMMSS and spells out
    exactly that date and time. *)
Theorem parsed_date_is_real_and_named_after_itself (s : string) (dt : datetime)
    (Hparse : get_datetime s = Return dt) (Hyear : 1000 <= year dt) :
  strptime.valid dt = true
  /\ stamp_shape (get_filename_from_datetime dt) = true
  /\ read_stamp (get_filename_from_datetime dt) = dt.
Proof.
  assert (Hv : strptime.valid dt = true).
  { unfold get_datetime, strptime.parse in Hparse.
    destruct (strptime.pattern s) as [|[[[[[[Y m] d] hh] mm] ss] r] tl];
      [discriminate|].
    destruct r; [|discriminate].
    destruct (strptime.valid (mk_datetime Y m d hh mm ss)) eqn:Hv;
      [|discriminate].
    injection Hparse as <-. exact Hv. }
  split; [exact Hv|].
  split; [apply stamp_has_shape | apply stamp_reads_back; assumption].
  split; [exact Hyear|].
  pose proof Hv as Hv'. unfold strptime.valid in Hv'.
  repeat (apply andb_prop in Hv' as [Hv' ?]).
  apply N.leb_le. assumption.
Qed.

Lemma canonical_text_example :
  strptime.valid (mk_datetime 2020 2 29 23 59 59) = true
  /\ get_datetime "2020:02:29 23:59:59"
     = Return (mk_datetime 2020 2 29 23 59 59).
Proof.
  split; [reflexivity|].
  exact (get_datetime_reads_canonical_text
           (mk_datetime 2020 2 29 23 59 59) eq_refl).
Defined.

Lemma text_after_seconds_example :
  strptime.valid (mk_datetime 2021 5 11 12 34 56) = true
  /\ "Z" <> EmptyString
  /\ get_datetime "2021:05:11 12:34:56Z" = Raise ValueError.
Proof.
  split; [reflexivity|]. split; [discriminate|].
  exact (get_datetime_rejects_text_after_seconds
           (mk_datetime 2021 5 11 12 34 56) "Z" eq_refl ltac:(discriminate)).
Defined.

Lemma plus_zone_example :
  strptime.valid (mk_datetime 2021 5 11 12 34 56) = true
  /\ cut_out_time_zone "2021:05:11 12:34:56+02:00" = "2021:05:11 12:34:56"
  /\ get_datetime (cut_out_time_zone "2021:05:11 12:34:56+02:00")
     = Return (mk_datetime 2021 5 11 12 34 56).
Proof.
  split; [reflexivity|].
  exact (plus_zone_is_cut_and_date_parses
           (mk_datetime 2021 5 11 12 34 56) "02:00" eq_refl).
Defined.

Lemma parsed_date_example :
  get_datetime "2021:5:1 2:04:06" = Return (mk_datetime 2021 5 1 2 4 6)
  /\ strptime.valid (mk_datetime 2021 5 1 2 4 6) = true
  /\ stamp_shape (get_filename_from_datetime (mk_datetime 2021 5 1 2 4 6)) = true
  /\ read_stamp (get_filename_from_datetime (mk_datetime 2021 5 1 2 4 6))
     = mk_datetime 2021 5 1 2 4 6.
Proof.
  split; [reflexivity|].
  exact (parsed_date_is_real_and_named_after_itself
           "2021:5:1 2:04:06" (mk_datetime 2021 5 1 2 4 6) eq_refl
           ltac:(simpl; lia)).
Defined.

(** ** More on enumeration and on the derived name *)

(** X1: the result of [list_files] is, directory by directory in the order of
    the walk, the joined paths of the files that pass the extension test, in
    the order the walk gives them; nothing else is in it. *)
Theorem list_files_lists_matching_files_in_walk_order
    (os_walk : string -> list (string * list string * list string))
    (startpath : string) :
  list_files os_walk startpath
  = flat_map (fun '(root, _, files) =>
                map (os_path.join root) (List.filter is_multimedia files))
      (os_walk startpath)
  /\ forall path,
       In path (list_files os_walk startpath)
       <-> exists root dirs files file,
             In (root, dirs, files) (os_walk startpath)
             /\ In file files /\ is_multimedia file = true
             /\ path = os_path.join root file.
Proof.
  assert (Hflat : list_files os_walk startpath
    = flat_map (fun '(root, _, files) =>
                  map (os_path.join root) (List.filter is_multimedia files))
        (os_walk startpath)).
  { unfold list_files. rewrite list_files_walk_spec. reflexivity. }
  split; [exact Hflat|].
  intros path. rewrite Hflat, in_flat_map. split.
  - intros ([[root dirs] files] & Hin & Hpath).
    apply in_map_iff in Hpath as (file & <- & Hfile).
    apply List.filter_In in Hfile as [Hfile Hkeep].
    exists root, dirs, files, file. auto.
  - intros (root & dirs & files & file & Hin & Hfile & Hkeep & ->).
    exists (root, dirs, files). split; [exact Hin|].
    apply in_map, List.filter_In. auto.
Qed.

(** X2: only the text after the last dot of a file name decides, compared
    without regard to case; dots earlier in the name play no part. *)
Theorem extension_test_reads_text_after_last_dot (name ext : string)
    (Hext : PyStr.contains "." ext = false) :
  is_multimedia (name ++ String "." ext)
  = PyStr.mem (PyStr.lower ext) multimediaFormats.
Proof.
  unfold is_multimedia.
  rewrite last_segment_app_dot, last_segment_dotless by exact Hext.
  reflexivity.
Qed.

Lemma extension_test_example :
  PyStr.contains "." "JPeG" = false
  /\ is_multimedia "holiday.2021.JPeG" = true.
Proof.
  split; [reflexivity|].
  exact (extension_test_reads_text_after_last_dot "holiday.2021" "JPeG" eq_refl).
Defined.

(** X8: for any source path, the text after the last dot of the derived path
    is the lowercased text after the last dot of the source, so the
    extension test of [list_files] answers the same on both. *)
Theorem derived_name_keeps_lowercased_extension
    (file : gmap string string) (src : string) (dt : datetime)
    (Hsrc : file !! "SourceFile" = Some src) :
  exists target,
    get_new_filename file dt = Return target
    /\ last_segment target = PyStr.lower (last_segment src)
    /\ is_multimedia target = is_multimedia src.
Proof.
  set (ext := PyStr.lower (last_segment src)).
  assert (Hext : PyStr.contains "." ext = false).
  { unfold ext. rewrite contains_dot_lower. apply last_segment_dot_free. }
  exists (os_path.dirname src ++ "/" ++ get_filename_from_datetime dt
          ++ String "." ext).
  assert (Hlast : last_segment (os_path.dirname src ++ "/"
                    ++ get_filename_from_datetime dt ++ String "." ext) = ext).
  { rewrite <- !string_app_assoc, last_segment_app_dot.
    apply last_segment_dotless. exact Hext. }
  split; [|split].
  - unfold get_new_filename, getitem. rewrite Hsrc. reflexivity.
  - exact Hlast.
  - unfold is_multimedia. rewrite Hlast. unfold ext.
    rewrite lower_idempotent. reflexivity.
Qed.

Lemma derived_name_extension_example :
  exists target,
    get_new_filename (Scenario.record_of ".\images/IMG_0001.JPG" "")
      (mk_datetime 2021 5 11 12 34 56) = Return target
    /\ last_segment target = "jpg"
    /\ is_multimedia target = is_multimedia ".\images/IMG_0001.JPG".
Proof.
  exact (derived_name_keeps_lowercased_extension
           (Scenario.record_of ".\images/IMG_0001.JPG" "")
           ".\images/IMG_0001.JPG" (mk_datetime 2021 5 11 12 34 56) eq_refl).
Defined.

Lemma derived_path_is_fixed_point_example :
  exists target,
    get_new_filename (Scenario.record_of ".\images/IMG_0001.JPG" "")
      (mk_datetime 2021 5 11 12 34 56) = Return target
    /\ get_new_filename
         (<["SourceFile" := target]>
            (Scenario.record_of ".\images/IMG_0001.JPG" ""))
         (mk_datetime 2021 5 11 12 34 56) = Return target.
Proof.
  exact (get_new_filename_fixed_point
           (Scenario.record_of ".\images/IMG_0001.JPG" "")
           ".\images/IMG_0001.JPG" (mk_datetime 2021 5 11 12 34 56)
           eq_refl eq_refl eq_refl).
Defined.

(** ** Files that are not being renamed *)

Lemma keeps_bind {A B} (p : string) (b : list Byte.byte)
    (m : M A) (f : A -> M B) :
  keeps_file p b m -> (forall a, keeps_file p b (f a)) ->
  keeps_file p b (m ≫= f).
Proof.
  intros Hm Hf w Hw. unfold mbind, M_bind.
  specialize (Hm w Hw). destruct (m w) as [w' [a| |]]; simpl in *;
    [apply Hf|..]; assumption.
Qed.

Lemma keeps_bind_pure {A B} (p : string) (b : list Byte.byte)
    (o : outcome A) (f : A -> M B) :
  (forall a, o = Return a -> keeps_file p b (f a)) ->
  keeps_file p b (pure o ≫= f).
Proof.
  intros Hf w Hw. unfold mbind, M_bind, pure.
  destruct o as [a| |]; simpl; [apply (Hf a eq_refl)|..]; assumption.
Qed.

Lemma keeps_ret {A} (p : string) (b : list Byte.byte) (a : A) :
  keeps_file p b (mret a).
Proof. intros w Hw. exact Hw. Qed.

Lemma keeps_logging_info (p : string) (b : list Byte.byte) (line : string) :
  keeps_file p b (logging_info line).
Proof. intros w Hw. exact Hw. Qed.

Lemma keeps_print (p : string) (b : list Byte.byte) (line : string) :
  keeps_file p b (print line).
Proof. intros w Hw. exact Hw. Qed.

Lemma keeps_input (p : string) (b : list Byte.byte) (prompt : string) :
  keeps_file p b (input prompt).
Proof.
  intros w Hw. unfold input. simpl. destruct (stdin w); exact Hw.
Qed.

Lemma keeps_read_local {A} (p : string) (b : list Byte.byte) (v : option A) :
  keeps_file p b (read_local v).
Proof. intros w Hw. destruct v; exact Hw. Qed.

Lemma keeps_try {A} (p : string) (b : list Byte.byte) (body handler : M A) :
  keeps_file p b body -> keeps_file p b handler ->
  keeps_file p b (try_except_ValueError body handler).
Proof.
  intros Hb Hh w Hw. unfold try_except_ValueError.
  specialize (Hb w Hw). destruct (body w) as [w' [a|[]|]]; simpl in *;
    try assumption.
  apply Hh. assumption.
Qed.

Lemma keeps_rename_file_if_necessary (fuel : nat) (p old new : string)
    (b : list Byte.byte) :
  p <> old -> keeps_file p b (rename_file_if_necessary fuel old new).
Proof.
  intros Hne. unfold rename_file_if_necessary.
  apply keeps_bind; [|intros; apply keeps_logging_info].
  destruct (String.eqb old new); [apply keeps_logging_info|].
  intros w Hw. apply change_filename_loop_keeps_other_files; assumption.
Qed.

Lemma keeps_renaming_a_record (fuel : nat) (p : string) (b : list Byte.byte)
    (file : gmap string string) (v : option datetime) :
  file !! "SourceFile" <> Some p ->
  keeps_file p b
    (src ← pure (getitem file "SourceFile");
     dt ← read_local v;
     new_filename ← pure (get_new_filename file dt);
     rename_file_if_necessary fuel src new_filename).
Proof.
  intros Hp. apply keeps_bind_pure. intros src Hsrc.
  apply keeps_bind; [apply keeps_read_local|]. intros dt.
  apply keeps_bind_pure. intros name _.
  apply keeps_rename_file_if_necessary.
  unfold getitem in Hsrc. destruct (file !! "SourceFile"); congruence.
Qed.

Lemma keeps_prompt_loop (rounds fuel : nat) (p : string) (b : list Byte.byte)
    (file : gmap string string) (md cd : option datetime) :
  file !! "SourceFile" <> Some p ->
  keeps_file p b (prompt_loop rounds fuel file md cd).
Proof.
  intros Hp. induction rounds as [|rounds IH]; [intros w Hw; exact Hw|].
  cbn [prompt_loop]. apply keeps_bind; [apply keeps_input|]. intros option.
  cbv zeta.
  destruct (PyStr.upper option =? "M")%string;
    [apply keeps_renaming_a_record; exact Hp|].
  destruct (PyStr.upper option =? "C")%string;
    [apply keeps_renaming_a_record; exact Hp|].
  destruct (PyStr.upper option =? "O")%string.
  - apply keeps_bind_pure. intros; apply keeps_logging_info.
  - apply keeps_bind; [apply keeps_logging_info | intros; exact IH].
Qed.

Lemma keeps_rename_file_if_any_date_metadata_exists (fuel : nat) (p : string)
    (b : list Byte.byte) (file : gmap string string) (md cd : option string) :
  file !! "SourceFile" <> Some p ->
  keeps_file p b (rename_file_if_any_date_metadata_exists fuel file md cd).
Proof.
  intros Hp. unfold rename_file_if_any_date_metadata_exists.
  destruct md as [md|], cd as [cd|].
  - apply keeps_bind_pure. intros dt_m _.
    apply keeps_bind_pure. intros dt_c _.
    apply keeps_bind_pure. intros src _.
    repeat (apply keeps_bind; [apply keeps_logging_info | intros _]).
    apply keeps_prompt_loop. exact Hp.
  - apply keeps_renaming_a_record. exact Hp.
  - apply keeps_renaming_a_record. exact Hp.
  - apply keeps_bind_pure. intros; apply keeps_logging_info.
Qed.

Lemma keeps_valid_files_loop (fuel : nat) (p : string) (b : list Byte.byte)
    (files : list (gmap string string)) :
  Forall (fun file => file !! "SourceFile" <> Some p) files ->
  forall new_filename, keeps_file p b (valid_files_loop fuel files new_filename).
Proof.
  induction 1 as [|file files Hp _ IH]; intros new_filename;
    [apply keeps_ret|].
  cbn [valid_files_loop]. apply keeps_bind_pure. intros src Hsrc.
  apply keeps_bind.
  { apply keeps_try.
    - repeat (apply keeps_bind_pure; intros ? _). apply keeps_ret.
    - apply keeps_bind; [apply keeps_print | intros; apply keeps_ret]. }
  intros nf.
  apply keeps_bind; [apply keeps_logging_info | intros _].
  apply keeps_bind_pure. intros date _.
  apply keeps_bind; [apply keeps_logging_info | intros _].
  apply keeps_bind; [apply keeps_read_local | intros target].
  apply keeps_bind; [|intros _; apply IH].
  apply keeps_rename_file_if_necessary.
  unfold getitem in Hsrc. destruct (file !! "SourceFile"); congruence.
Qed.

Lemma keeps_invalid_files_loop (fuel : nat) (p : string) (b : list Byte.byte)
    (files : list (gmap string string)) :
  Forall (fun file => file !! "SourceFile" <> Some p) files ->
  keeps_file p b (invalid_files_loop fuel files).
Proof.
  induction 1 as [|file files Hp _ IH]; [apply keeps_ret|].
  cbn [invalid_files_loop]. cbv zeta.
  apply keeps_bind;
    [apply keeps_rename_file_if_any_date_metadata_exists; exact Hp | intros _].
  apply keeps_bind; [apply keeps_logging_info | intros _; exact IH].
Qed.

(** X21: Whatever a run does and however it ends, a file whose path no metadata
    record names as its SourceFile keeps its path and its bytes. *)
Theorem main_leaves_unlisted_files_alone
    (os_walk : string -> list (string * list string * list string))
    (get_metadata : list string -> list (gmap string string))
    (fuel : nat) (w : world) (p : string) (b : list Byte.byte)
    (Hunlisted : Forall (fun file => file !! "SourceFile" <> Some p)
                   (get_metadata (list_files os_walk ".\images")))
    (Hfile : fs w !! p = Some b) :
  fs (main os_walk get_metadata fuel w).1 !! p = Some b.
Proof.
  revert w Hfile. change (keeps_file p b (main os_walk get_metadata fuel)).
  unfold main, find_files_with_datetimeoriginal_metadata.
  rewrite classify_accumulates. cbn [app].
  set (records := get_metadata (list_files os_walk ".\images")) in *.
  assert (Hsub : forall f : gmap string string -> bool,
            Forall (fun file => file !! "SourceFile" <> Some p)
              (List.filter f records)).
  { intros f. apply List.Forall_forall. intros file Hin.
    apply List.filter_In in Hin as [Hin _].
    rewrite List.Forall_forall in Hunlisted. auto. }
  apply keeps_bind; [apply keeps_logging_info | intros _].
  apply keeps_bind; [apply keeps_valid_files_loop, Hsub | intros _].
  apply keeps_bind; [apply keeps_logging_info | intros _].
  apply keeps_invalid_files_loop, Hsub.
Qed.

(** X10: Renaming one file never touches another: every other file keeps its
    path and its bytes, for any number of rounds and any outcome. *)
Theorem rename_leaves_other_files_alone
    (fuel : nat) (old new p : string) (b : list Byte.byte) (w : world)
    (Hother : p <> old) (Hfile : fs w !! p = Some b) :
  fs (rename_file_if_necessary fuel old new w).1 !! p = Some b.
Proof. exact (keeps_rename_file_if_necessary fuel p old new b Hother w Hfile). Qed.

(** ** More on the collision loop *)

Lemma mutations_snoc (t : list event) (e : event) :
  mutations (t ++ [e]) = (mutations t + (if is_mutation e then 1 else 0))%nat.
Proof.
  unfold mutations. rewrite List.filter_app, length_app. simpl.
  destruct (is_mutation e); reflexivity.
Qed.

Lemma candidate_is_pure (i : N) (new_filename : string) (w : world) :
  exists o,
    (if negb (i =? 1) then
       stem ← pure (index_m2 (PyStr.split "." new_filename));
       ext ← pure (index_m1 (PyStr.split "." new_filename));
       mret ("." ++ stem ++ " (" ++ PyStr.str i ++ ")." ++ ext)
     else mret new_filename) w = (w, (o : outcome string)).
Proof.
  destruct (negb (i =? 1)); [|eexists; reflexivity].
  unfold mbind, M_bind, pure.
  destruct (index_m2 _); try (eexists; reflexivity).
  destruct (index_m1 _); eexists; reflexivity.
Qed.

(** Once the source is gone, the loop changes nothing and stops in the
    round it is in. *)
Lemma loop_without_source (fuel : nat) (old : string) (i : N) (new : string)
    (w : world) :
  fs w !! old = None ->
  let r := change_filename_loop fuel old i new w in
  fs r.1 = fs w /\ mutations (trace r.1) = mutations (trace w).
Proof.
  intros Hold.
  set (P := fun r : world * outcome unit =>
              fs r.1 = fs w /\ mutations (trace r.1) = mutations (trace w)).
  change (P (change_filename_loop fuel old i new w)).
  destruct fuel as [|fuel]; [split; reflexivity|].
  cbn [change_filename_loop].
  unfold mbind at 1, M_bind at 1.
  destruct (candidate_is_pure i new w) as [o ->].
  destruct o as [cand| |]; [|split; reflexivity|split; reflexivity].
  unfold mbind at 1, M_bind at 1, os_path_exists at 1.
  destruct (bool_decide (is_Some (fs w !! cand))).
  - unfold files_are_identical, mbind, M_bind, open_read. simpl.
    rewrite Hold. unfold P. simpl. rewrite !mutations_snoc. simpl.
    split; [reflexivity|lia].
  - unfold mbind, M_bind, os_path_exists, logging_info. simpl.
    rewrite (exists_false w old Hold). unfold P. simpl.
    rewrite !mutations_snoc. simpl. split; [reflexivity|lia].
Qed.

Lemma files_are_identical_trace (a b : string) (w : world) :
  mutations (trace (files_are_identical a b w).1) = mutations (trace w).
Proof.
  unfold files_are_identical, mbind, M_bind, open_read. simpl.
  destruct (fs w !! a); simpl; [|rewrite mutations_snoc; simpl; lia].
  destruct (fs w !! b); simpl; rewrite !mutations_snoc; simpl; lia.
Qed.

(** X11: One call changes the directory at most once: it performs at most one
    rename or removal in total, however many rounds it runs. *)
Theorem change_filename_changes_directory_at_most_once
    (fuel : nat) (old new : string) (w : world) :
  (mutations (trace (change_filename_until_success fuel old new w).1)
   <= mutations (trace w) + 1)%nat.
Proof.
  unfold change_filename_until_success. generalize 1 as i.
  revert new w. induction fuel as [|fuel IH]; intros new w i; [simpl; lia|].
  cbn [change_filename_loop].
  unfold mbind at 1, M_bind at 1.
  destruct (candidate_is_pure i new w) as [o ->].
  destruct o as [cand| |]; [|simpl; lia|simpl; lia].
  unfold mbind at 1, M_bind at 1, os_path_exists at 1.
  destruct (bool_decide (is_Some (fs w !! cand))).
  - unfold mbind at 1, M_bind at 1.
    pose proof (files_are_identical_trace old cand
                  (emit (EvExists cand true) w)) as Htr.
    destruct (files_are_identical old cand (emit (EvExists cand true) w))
      as [w1 [same| |]]; simpl in Htr; rewrite mutations_snoc in Htr;
      simpl in Htr; try (simpl; lia).
    destruct same.
    + unfold mbind at 1, M_bind at 1, logging_info at 1.
      unfold mbind at 1, M_bind at 1, os_remove at 1. simpl.
      destruct (fs w1 !! old) eqn:Hold; simpl.
      * match goal with |- context [change_filename_loop fuel old i cand ?w2] =>
          destruct (loop_without_source fuel old i cand w2) as [_ ->]
        end.
        -- simpl. apply lookup_delete_eq.
        -- simpl. rewrite !mutations_snoc. simpl. lia.
      * rewrite !mutations_snoc. simpl. lia.
    + etransitivity; [apply IH|]. lia.
  - unfold mbind at 1, M_bind at 1, os_path_exists at 1. simpl.
    destruct (bool_decide (is_Some (fs w !! old))).
    + unfold mbind, M_bind, os_rename, logging_info. simpl.
      destruct (fs w !! old); simpl;
        [destruct (directory_exists _ _); simpl|];
        rewrite !mutations_snoc; simpl; lia.
    + simpl. rewrite !mutations_snoc. simpl. lia.
Qed.

(** X14: A source that does not exist: nothing is changed; the call returns
    when the target name is free and fails on opening the source when the
    target name is taken. *)
Theorem missing_source_changes_nothing (n : nat) (old new : string) (w : world)
    (Hmissing : fs w !! old = None) :
  let r := change_filename_until_success (S n) old new w in
  fs r.1 = fs w
  /\ r.2 = (if bool_decide (is_Some (fs w !! new))
            then Raise FileNotFoundError else Return tt).
Proof.
  set (P := fun r : world * outcome unit =>
              fs r.1 = fs w
              /\ r.2 = (if bool_decide (is_Some (fs w !! new))
                        then Raise FileNotFoundError else Return tt)).
  change (P (change_filename_until_success (S n) old new w)).
  unfold change_filename_until_success. cbn [change_filename_loop].
  change (negb (1 =? 1)) with false. cbv beta iota.
  unfold mbind at 1, M_bind at 1, mret, M_ret.
  unfold mbind at 1, M_bind at 1, os_path_exists at 1.
  unfold P. destruct (bool_decide (is_Some (fs w !! new))).
  - unfold files_are_identical, mbind, M_bind, open_read. simpl.
    rewrite Hmissing. split; reflexivity.
  - unfold mbind, M_bind, os_path_exists, logging_info. simpl.
    rewrite (exists_false w old Hmissing). split; reflexivity.
Qed.

(** X12: A free target name in a directory that exists: the file is moved
    there in the first round. *)
Theorem free_target_gets_the_file (n : nat) (old new : string) (w : world)
    (b : list Byte.byte)
    (Hdiff : old <> new) (Hfree : fs w !! new = None)
    (Hold : fs w !! old = Some b)
    (Hdir : directory_exists w (os_path.dirname new) = true) :
  let r := rename_file_if_necessary (S n) old new w in
  r.2 = Return tt
  /\ fs r.1 = <[new := b]> (delete old (fs w))
  /\ fs r.1 !! new = Some b /\ fs r.1 !! old = None
  /\ stdin r.1 = stdin w.
Proof.
  unfold rename_file_if_necessary.
  rewrite (proj2 (String.eqb_neq old new) Hdiff).
  unfold mbind, M_bind.
  rewrite (free_target_is_renamed n old new w b Hfree Hold Hdir).
  unfold logging_info. simpl.
  repeat split.
  - apply lookup_insert_eq.
  - rewrite lookup_insert_ne by congruence. apply lookup_delete_eq.
Qed.

Lemma split_last_two (pre stem ext : string) :
  PyStr.contains "." stem = false ->
  PyStr.contains "." ext = false ->
  index_m2 (PyStr.split "." (pre ++ String "." (stem ++ String "." ext)))
  = Return stem
  /\ index_m1 (PyStr.split "." (pre ++ String "." (stem ++ String "." ext)))
     = Return ext.
Proof.
  intros Hstem Hext.
  rewrite !split_app_sep.
  rewrite (split_without_separator "." stem Hstem),
    (split_without_separator "." ext Hext).
  unfold index_m2, index_m1. rewrite !rev_app_distr. split; reflexivity.
Qed.

(** X13: The first retry name is built from the text after the second-to-last
    dot of the target alone: whatever precedes that dot is replaced by a
    single ".".  With the target taken by a different file, that retry
    name free and its directory in existence, the source is moved there and
    the file under the target name keeps its bytes. *)
Theorem first_retry_name_drops_text_before_second_to_last_dot
    (n : nat) (old pre stem ext : string) (w : world) (b c : list Byte.byte)
    (Hstem : PyStr.contains "." stem = false)
    (Hext : PyStr.contains "." ext = false)
    (Hold : fs w !! old = Some b)
    (Htaken : fs w !! (pre ++ String "." (stem ++ String "." ext)) = Some c)
    (Hdiff : b <> c)
    (Hfree : fs w !! ("." ++ stem ++ " (2)." ++ ext) = None)
    (Hdir : directory_exists w
              (os_path.dirname ("." ++ stem ++ " (2)." ++ ext)) = true) :
  let new := pre ++ String "." (stem ++ String "." ext) in
  let r := change_filename_until_success (2 + n) old new w in
  r.2 = Return tt
  /\ fs r.1 = <["." ++ stem ++ " (2)." ++ ext := b]> (delete old (fs w))
  /\ fs r.1 !! ("." ++ stem ++ " (2)." ++ ext) = Some b
  /\ fs r.1 !! new = Some c.
Proof.
  intros new r.
  destruct (split_last_two pre stem ext Hstem Hext) as [H2 H1].
  assert (Hr : r = _) by
    exact (first_retry_inserts_counter n old new stem ext w b c
             H2 H1 Hold Htaken Hdiff Hfree Hdir).
  rewrite Hr. simpl.
  assert (Hne : new <> old)
    by (intros E; unfold new in E; rewrite E in Htaken; congruence).
  assert (Hne2 : "." ++ stem ++ " (2)." ++ ext <> new)
    by (intros E; unfold new in E; rewrite E in Hfree; congruence).
  repeat split.
  - apply lookup_insert_eq.
  - rewrite lookup_insert_ne by exact Hne2.
    rewrite lookup_delete_ne by congruence. exact Htaken.
Qed.

(** X15: A target name without any dot that is taken by a different file: the
    first retry cannot form its name and the call fails with IndexError,
    leaving every file as it was. *)
Theorem dotless_target_retry_raises_IndexError
    (n : nat) (old new : string) (w : world) (b c : list Byte.byte)
    (Hdotless : PyStr.contains "." new = false)
    (Hold : fs w !! old = Some b)
    (Htaken : fs w !! new = Some c)
    (Hdiff : b <> c) :
  let r := change_filename_until_success (2 + n) old new w in
  r.2 = Raise IndexError /\ fs r.1 = fs w.
Proof.
  set (P := fun r : world * outcome unit =>
              r.2 = Raise IndexError /\ fs r.1 = fs w).
  change (P (change_filename_until_success (2 + n) old new w)).
  unfold change_filename_until_success. cbn [change_filename_loop Nat.add].
  change (negb (1 =? 1)) with false. change (negb (1 + 1 =? 1)) with true.
  cbv beta iota.
  unfold files_are_identical.
  unfold mbind, M_bind, mret, M_ret, pure, os_path_exists,
    open_read, emit, set_fs.
  repeat (cbv beta iota; cbn [fs stdin trace];
          first [ rewrite (exists_true w new c Htaken)
                | rewrite Hold | rewrite Htaken
                | rewrite (bool_decide_eq_false_2 _ Hdiff)
                | rewrite (split_without_separator "." new Hdotless)
                | progress change (index_m2 [new])
                    with (@Raise string IndexError) ]).
  unfold P. split; reflexivity.
Qed.

(** ** The prompt *)

Lemma get_datetime_outcomes (s : string) :
  (exists dt, get_datetime s = Return dt) \/ get_datetime s = Raise ValueError.
Proof.
  unfold get_datetime, strptime.parse.
  destruct (strptime.pattern s) as [|[[[[[[Y m] d] hh] mm] ss] r] tl];
    [right; reflexivity|].
  destruct r; [|right; reflexivity].
  destruct (strptime.valid _); [left; eauto | right; reflexivity].
Qed.

(** X16: With both fallback dates present, a date that does not parse ends the
    call with ValueError before anything is logged, asked or renamed. *)
Theorem unparseable_fallback_date_raises_before_prompt
    (fuel : nat) (file : gmap string string) (modify_date create_date : string)
    (w : world)
    (Hbad : get_datetime modify_date = Raise ValueError
            \/ get_datetime create_date = Raise ValueError) :
  rename_file_if_any_date_metadata_exists fuel file
    (Some modify_date) (Some create_date) w
  = (w, Raise ValueError).
Proof.
  unfold rename_file_if_any_date_metadata_exists.
  unfold mbind at 1, M_bind at 1, pure at 1.
  destruct (get_datetime_outcomes modify_date) as [[dt Hm]|Hm];
    rewrite Hm; [|reflexivity].
  destruct Hbad as [Hbad|Hbad]; [congruence|].
  unfold mbind at 1, M_bind at 1, pure at 1. rewrite Hbad. reflexivity.
Qed.

(** Wrong answers are passed over, one round each. *)
Lemma prompt_loop_skips_wrong_options (fuel : nat) (file : gmap string string)
    (md cd : option datetime) (junk : list string) :
  Forall wrong_option junk ->
  forall (rounds : nat) (tail : list string) (w : world),
    stdin w = (junk ++ tail)%list ->
    exists w', fs w' = fs w /\ stdin w' = tail
               /\ mutations (trace w') = mutations (trace w)
               /\ prompt_loop (length junk + rounds) fuel file md cd w
                  = prompt_loop rounds fuel file md cd w'.
Proof.
  induction 1 as [|line junk (HM & HC & HO) _ IH]; intros rounds tail w Hin.
  - exists w. auto.
  - simpl in Hin.
    destruct (IH rounds tail
                (emit (EvLog "Wrong option. Try again")
                   (mk_world (fs w) (dirs w) (junk ++ tail)
                      (trace (emit (EvInput prompt_text) w)))) eq_refl)
      as (w' & Hfs & Hstdin & Hmut & Hloop).
    exists w'. split; [exact Hfs|]. split; [exact Hstdin|].
    split; [rewrite Hmut; simpl; rewrite !mutations_snoc; simpl; lia|].
    rewrite <- Hloop. cbn [length Nat.add prompt_loop].
    unfold mbind at 1, M_bind at 1, input at 1. cbn [stdin emit].
    rewrite Hin. cbv zeta.
    rewrite (proj2 (String.eqb_neq _ _) HM), (proj2 (String.eqb_neq _ _) HC),
      (proj2 (String.eqb_neq _ _) HO).
    reflexivity.
Qed.

Lemma prompt_loop_answer (rounds fuel : nat) (file : gmap string string)
    (md cd : option datetime) (line : string) (rest : list string) (w : world) :
  stdin w = line :: rest ->
  prompt_loop (S rounds) fuel file md cd w
  = (let choice := PyStr.upper line in
     if String.eqb choice "M" then
       src ← pure (getitem file "SourceFile");
       dt ← read_local md;
       new_filename ← pure (get_new_filename file dt);
       rename_file_if_necessary fuel src new_filename
     else if String.eqb choice "C" then
       src ← pure (getitem file "SourceFile");
       dt ← read_local cd;
       new_filename ← pure (get_new_filename file dt);
       rename_file_if_necessary fuel src new_filename
     else if String.eqb choice "O" then
       src ← pure (getitem file "SourceFile");
       logging_info ("Didn't rename " ++ src ++ " because of user choice")
     else
       logging_info "Wrong option. Try again";;
       prompt_loop rounds fuel file md cd)
      (mk_world (fs w) (dirs w) rest (trace w ++ [EvInput prompt_text])).
Proof.
  intros Hin. cbn [prompt_loop].
  unfold mbind at 1, M_bind at 1, input at 1. cbn [stdin emit].
  rewrite Hin. reflexivity.
Qed.

Lemma prompt_reached (fuel : nat) (file : gmap string string)
    (modify_date create_date src : string) (dt_m dt_c : datetime) (w : world) :
  file !! "SourceFile" = Some src ->
  get_datetime modify_date = Return dt_m ->
  get_datetime create_date = Return dt_c ->
  exists w0, fs w0 = fs w /\ stdin w0 = stdin w
    /\ mutations (trace w0) = mutations (trace w)
    /\ rename_file_if_any_date_metadata_exists fuel file
         (Some modify_date) (Some create_date) w
       = prompt_loop fuel fuel file (Some dt_m) (Some dt_c) w0.
Proof.
  intros Hsrc Hm Hc. unfold rename_file_if_any_date_metadata_exists.
  unfold mbind at 1, M_bind at 1, pure at 1. rewrite Hm.
  unfold mbind at 1, M_bind at 1, pure at 1. rewrite Hc.
  unfold mbind at 1, M_bind at 1, pure at 1, getitem at 1. rewrite Hsrc.
  unfold mbind, M_bind, logging_info.
  exists (emit (EvLog ("Creation date: " ++ create_date))
            (emit (EvLog ("Modify date: " ++ modify_date))
               (emit (EvLog ("Old filename: " ++ src)) w))).
  split; [reflexivity|]. split; [reflexivity|].
  split; [|reflexivity].
  simpl. rewrite !mutations_snoc. simpl. lia.
Qed.

(** Both dates parse and the console holds wrong answers followed by one
    more line: the prompt loop reaches that line with every file as it
    was. *)
Lemma prompt_reaches_answer
    (k : nat) (file : gmap string string) (modify_date create_date src : string)
    (dt_m dt_c : datetime) (junk tail : list string) (w : world) :
  file !! "SourceFile" = Some src ->
  get_datetime modify_date = Return dt_m ->
  get_datetime create_date = Return dt_c ->
  Forall wrong_option junk ->
  stdin w = (junk ++ tail)%list ->
  exists w1, fs w1 = fs w /\ stdin w1 = tail
    /\ mutations (trace w1) = mutations (trace w)
    /\ rename_file_if_any_date_metadata_exists (length junk + k) file
         (Some modify_date) (Some create_date) w
       = prompt_loop k (length junk + k) file (Some dt_m) (Some dt_c) w1.
Proof.
  intros Hsrc Hm Hc Hjunk Hin.
  destruct (prompt_reached (length junk + k) file modify_date create_date
              src dt_m dt_c w Hsrc Hm Hc) as (w0 & Hfs0 & Hin0 & Hmut0 & ->).
  rewrite Hin in Hin0.
  destruct (prompt_loop_skips_wrong_options (length junk + k) file
              (Some dt_m) (Some dt_c) junk Hjunk k tail w0 Hin0)
    as (w1 & Hfs1 & Hin1 & Hmut1 & ->).
  exists w1. repeat split; congruence.
Qed.

(** X17: Answering O, in either case and after any number of wrong answers,
    leaves every file as it was; the lines up to and including the answer
    are consumed and no more. *)
Theorem answer_O_keeps_the_old_name
    (k : nat) (file : gmap string string) (modify_date create_date src : string)
    (dt_m dt_c : datetime) (junk : list string) (line : string)
    (rest : list string) (w : world)
    (Hsrc : file !! "SourceFile" = Some src)
    (Hm : get_datetime modify_date = Return dt_m)
    (Hc : get_datetime create_date = Return dt_c)
    (Hjunk : Forall wrong_option junk)
    (Hline : PyStr.upper line = "O")
    (Hin : stdin w = (junk ++ line :: rest)%list) :
  let r := rename_file_if_any_date_metadata_exists (length junk + S k) file
             (Some modify_date) (Some create_date) w in
  r.2 = Return tt /\ fs r.1 = fs w /\ stdin r.1 = rest
  /\ mutations (trace r.1) = mutations (trace w).
Proof.
  intros r. subst r.
  destruct (prompt_reaches_answer (S k) file modify_date create_date src
              dt_m dt_c junk (line :: rest) w Hsrc Hm Hc Hjunk Hin)
    as (w1 & Hfs & Hin1 & Hmut & ->).
  rewrite (prompt_loop_answer k _ file _ _ line rest w1 Hin1).
  cbv zeta. rewrite Hline. cbn [String.eqb Ascii.eqb Bool.eqb].
  unfold mbind, M_bind, pure, getitem, logging_info. rewrite Hsrc. simpl.
  rewrite !mutations_snoc. simpl. repeat split; [congruence | lia].
Qed.

(** X19: When the console ends before an accepted answer is given, the call
    ends with EOFError and every file is as it was. *)
Theorem console_end_raises_EOFError
    (k : nat) (file : gmap string string) (modify_date create_date src : string)
    (dt_m dt_c : datetime) (junk : list string) (w : world)
    (Hsrc : file !! "SourceFile" = Some src)
    (Hm : get_datetime modify_date = Return dt_m)
    (Hc : get_datetime create_date = Return dt_c)
    (Hjunk : Forall wrong_option junk)
    (Hin : stdin w = junk) :
  let r := rename_file_if_any_date_metadata_exists (length junk + S k) file
             (Some modify_date) (Some create_date) w in
  r.2 = Raise EOFError /\ fs r.1 = fs w
  /\ mutations (trace r.1) = mutations (trace w).
Proof.
  intros r. subst r.
  assert (Hin' : stdin w = (junk ++ [])%list) by (rewrite app_nil_r; exact Hin).
  destruct (prompt_reaches_answer (S k) file modify_date create_date src
              dt_m dt_c junk [] w Hsrc Hm Hc Hjunk Hin')
    as (w1 & Hfs & Hin1 & Hmut & ->).
  cbn [prompt_loop]. unfold mbind, M_bind, input. cbn [stdin emit].
  rewrite Hin1. simpl. rewrite !mutations_snoc. simpl.
  repeat split; [congruence | lia].
Qed.

(** X18: Answering M renames from the modification date and answering C from
    the creation date, in either case of the letter: what happens from
    there on is the collision-safe rename of the source towards the name
    derived from the chosen date. *)
Theorem answer_M_or_C_renames_from_the_chosen_date
    (k : nat) (file : gmap string string) (modify_date create_date src : string)
    (dt_m dt_c : datetime) (target_m target_c : string)
    (junk : list string) (line : string) (rest : list string) (w : world)
    (Hsrc : file !! "SourceFile" = Some src)
    (Hm : get_datetime modify_date = Return dt_m)
    (Hc : get_datetime create_date = Return dt_c)
    (Htm : get_new_filename file dt_m = Return target_m)
    (Htc : get_new_filename file dt_c = Return target_c)
    (Hjunk : Forall wrong_option junk)
    (Hline : PyStr.upper line = "M" \/ PyStr.upper line = "C")
    (Hin : stdin w = (junk ++ line :: rest)%list) :
  exists w1,
    fs w1 = fs w /\ stdin w1 = rest
    /\ rename_file_if_any_date_metadata_exists (length junk + S k) file
         (Some modify_date) (Some create_date) w
       = rename_file_if_necessary (length junk + S k) src
           (if String.eqb (PyStr.upper line) "M" then target_m else target_c) w1.
Proof.
  destruct (prompt_reaches_answer (S k) file modify_date create_date src
              dt_m dt_c junk (line :: rest) w Hsrc Hm Hc Hjunk Hin)
    as (w1 & Hfs & Hin1 & Hmut & ->).
  rewrite (prompt_loop_answer k _ file _ _ line rest w1 Hin1).
  exists (mk_world (fs w1) (dirs w1) rest
            (trace w1 ++ [EvInput prompt_text])).
  split; [exact Hfs|]. split; [reflexivity|].
  cbv zeta. destruct Hline as [-> | ->]; cbn [String.eqb Ascii.eqb Bool.eqb].
  - unfold mbind, M_bind, pure, getitem, read_local, mret, M_ret.
    rewrite Hsrc, Htm. reflexivity.
  - unfold mbind, M_bind, pure, getitem, read_local, mret, M_ret.
    rewrite Hsrc, Htc. reflexivity.
Qed.

(** ** The loop over files with a capture date *)

(** X20: A record whose date parses and whose derived name is free and lies
    in a directory that exists: the file is moved to the derived name,
    nothing is read from the console, and the loop goes on with the
    remaining records. *)
Theorem valid_file_with_free_name_is_renamed
    (n : nat) (file : gmap string string) (files : list (gmap string string))
    (previous : option string) (src date target : string) (dt : datetime)
    (b : list Byte.byte) (w : world)
    (Hsrc : file !! "SourceFile" = Some src)
    (Hdate : file !! "EXIF:DateTimeOriginal" = Some date)
    (Hdt : get_datetime date = Return dt)
    (Hnew : get_new_filename file dt = Return target)
    (Hdiff : src <> target)
    (Hfree : fs w !! target = None)
    (Hfile : fs w !! src = Some b)
    (Hdir : directory_exists w (os_path.dirname target) = true) :
  exists w1,
    fs w1 = <[target := b]> (delete src (fs w))
    /\ stdin w1 = stdin w
    /\ valid_files_loop (S n) (file :: files) previous w
       = valid_files_loop (S n) files (Some target) w1.
Proof.
  cbn [valid_files_loop].
  unfold mbind at 1, M_bind at 1, pure at 1, getitem at 1. rewrite Hsrc.
  unfold mbind at 1, M_bind at 1, try_except_ValueError.
  unfold mbind at 1, M_bind at 1, pure at 1, getitem at 1. rewrite Hdate.
  unfold mbind at 1, M_bind at 1, pure at 1. rewrite Hdt.
  unfold mbind at 1, M_bind at 1, pure at 1. rewrite Hnew.
  unfold mret at 1, M_ret at 1.
  unfold mbind at 1, M_bind at 1, logging_info at 1.
  unfold mbind at 1, M_bind at 1, pure at 1, getitem at 1. rewrite Hdate.
  unfold mbind at 1, M_bind at 1, logging_info at 1.
  unfold mbind at 1, M_bind at 1, read_local, mret at 1, M_ret at 1.
  unfold mbind at 1, M_bind at 1.
  unfold rename_file_if_necessary.
  rewrite (proj2 (String.eqb_neq src target) Hdiff).
  unfold mbind at 1, M_bind at 1.
  match goal with
  | |- context [change_filename_until_success (S n) src target ?w0] =>
      rewrite (free_target_is_renamed n src target w0 b Hfree Hfile Hdir)
  end.
  unfold logging_info at 1.
  refine (ex_intro _ _ (conj _ (conj _ eq_refl))); reflexivity.
Qed.

(** ** The properties above at concrete directories *)

Lemma taken_target_is_left_alone :
  fs (rename_file_if_necessary 10 ".\images/a.jpg" Scenario.stamp
        (Scenario.start Scenario.crowded_dir)).1 !! Scenario.stamp
  = Some Scenario.photo_b.
Proof.
  apply rename_leaves_other_files_alone;
    [discriminate | vm_compute; reflexivity].
Defined.

Lemma notes_file_survives_a_run :
  fs (main Scenario.walk_fresh Scenario.same_second 10
        (Scenario.start
           (<[".\images/notes.txt" := Scenario.photo_c]> Scenario.fresh_dir))).1
    !! ".\images/notes.txt"
  = Some Scenario.photo_c.
Proof.
  apply main_leaves_unlisted_files_alone.
  - constructor; [intros H; vm_compute in H; discriminate|].
    constructor; [intros H; vm_compute in H; discriminate|].
    constructor.
  - vm_compute. reflexivity.
Defined.

Lemma missing_source_example :
  let r := change_filename_until_success 1 ".\images/gone.jpg" Scenario.stamp
             (Scenario.start Scenario.fresh_dir) in
  fs r.1 = fs (Scenario.start Scenario.fresh_dir)
  /\ r.2 = (if bool_decide
                 (is_Some (fs (Scenario.start Scenario.fresh_dir)
                           !! Scenario.stamp))
            then Raise FileNotFoundError else Return tt).
Proof.
  apply (missing_source_changes_nothing 0 ".\images/gone.jpg" Scenario.stamp
           (Scenario.start Scenario.fresh_dir)).
  vm_compute. reflexivity.
Defined.

Lemma free_target_example :
  let w := Scenario.start Scenario.fresh_dir in
  let r := rename_file_if_necessary 1 ".\images/a.jpg" Scenario.stamp w in
  r.2 = Return tt
  /\ fs r.1 = <[Scenario.stamp := Scenario.photo_a]>
                (delete ".\images/a.jpg" (fs w))
  /\ fs r.1 !! Scenario.stamp = Some Scenario.photo_a
  /\ fs r.1 !! ".\images/a.jpg" = None
  /\ stdin r.1 = stdin w.
Proof.
  apply (free_target_gets_the_file 0 ".\images/a.jpg" Scenario.stamp
           (Scenario.start Scenario.fresh_dir) Scenario.photo_a).
  - discriminate.
  - vm_compute. reflexivity.
  - vm_compute. reflexivity.
  - vm_compute. reflexivity.
Defined.

Lemma first_retry_example :
  let w := Scenario.start
             {[ ".\images/a.jpg" := Scenario.photo_a;
                Scenario.stamp := Scenario.photo_b ]} in
  let r := change_filename_until_success 2 ".\images/a.jpg" Scenario.stamp w in
  r.2 = Return tt
  /\ fs r.1 = <[Scenario.stamp2 := Scenario.photo_a]>
                (delete ".\images/a.jpg" (fs w))
  /\ fs r.1 !! Scenario.stamp2 = Some Scenario.photo_a
  /\ fs r.1 !! Scenario.stamp = Some Scenario.photo_b.
Proof.
  apply (first_retry_name_drops_text_before_second_to_last_dot 0
           ".\images/a.jpg" "" "\images/20210511_123456" "jpg"
           (Scenario.start
              {[ ".\images/a.jpg" := Scenario.photo_a;
                 Scenario.stamp := Scenario.photo_b ]})
           Scenario.photo_a Scenario.photo_b).
  - reflexivity.
  - reflexivity.
  - vm_compute. reflexivity.
  - vm_compute. reflexivity.
  - discriminate.
  - vm_compute. reflexivity.
  - vm_compute. reflexivity.
Defined.

Lemma dotless_target_example :
  let w := Scenario.start
             {[ "README" := Scenario.photo_a; "LICENSE" := Scenario.photo_b ]} in
  let r := change_filename_until_success 2 "README" "LICENSE" w in
  r.2 = Raise IndexError /\ fs r.1 = fs w.
Proof.
  apply (dotless_target_retry_raises_IndexError 0 "README" "LICENSE"
           (Scenario.start
              {[ "README" := Scenario.photo_a; "LICENSE" := Scenario.photo_b ]})
           Scenario.photo_a Scenario.photo_b).
  - reflexivity.
  - vm_compute. reflexivity.
  - vm_compute. reflexivity.
  - discriminate.
Defined.

Lemma unparseable_fallback_date_example :
  rename_file_if_any_date_metadata_exists 5
    (Scenario.record_of ".\images/a.jpg" "")
    (Some "2021:05:11 12:34:56-05:00") (Some "2021:05:11 12:34:56")
    (Scenario.start Scenario.fresh_dir)
  = (Scenario.start Scenario.fresh_dir, Raise ValueError).
Proof.
  apply unparseable_fallback_date_raises_before_prompt.
  left. vm_compute. reflexivity.
Defined.

Lemma answer_O_example :
  let w := mk_world Scenario.fresh_dir Scenario.folders ["x"; ""; "o"; "m"] [] in
  let r := rename_file_if_any_date_metadata_exists 3
             (Scenario.record_of ".\images/a.jpg" "")
             (Some "2021:05:11 12:34:56") (Some "2020:01:02 03:04:05") w in
  r.2 = Return tt /\ fs r.1 = fs w /\ stdin r.1 = ["m"]
  /\ mutations (trace r.1) = mutations (trace w).
Proof.
  apply (answer_O_keeps_the_old_name 0
           (Scenario.record_of ".\images/a.jpg" "")
           "2021:05:11 12:34:56" "2020:01:02 03:04:05" ".\images/a.jpg"
           (mk_datetime 2021 5 11 12 34 56) (mk_datetime 2020 1 2 3 4 5)
           ["x"; ""] "o" ["m"]
           (mk_world Scenario.fresh_dir Scenario.folders ["x"; ""; "o"; "m"] [])).
  - reflexivity.
  - vm_compute. reflexivity.
  - vm_compute. reflexivity.
  - constructor; [repeat split; discriminate|].
    constructor; [repeat split; discriminate|]. constructor.
  - reflexivity.
  - reflexivity.
Defined.

Lemma console_end_example :
  let w := mk_world Scenario.fresh_dir Scenario.folders ["x"] [] in
  let r := rename_file_if_any_date_metadata_exists 2
             (Scenario.record_of ".\images/a.jpg" "")
             (Some "2021:05:11 12:34:56") (Some "2020:01:02 03:04:05") w in
  r.2 = Raise EOFError /\ fs r.1 = fs w
  /\ mutations (trace r.1) = mutations (trace w).
Proof.
  apply (console_end_raises_EOFError 0
           (Scenario.record_of ".\images/a.jpg" "")
           "2021:05:11 12:34:56" "2020:01:02 03:04:05" ".\images/a.jpg"
           (mk_datetime 2021 5 11 12 34 56) (mk_datetime 2020 1 2 3 4 5)
           ["x"] (mk_world Scenario.fresh_dir Scenario.folders ["x"] [])).
  - reflexivity.
  - vm_compute. reflexivity.
  - vm_compute. reflexivity.
  - constructor; [repeat split; discriminate | constructor].
  - reflexivity.
Defined.

Lemma answer_c_example :
  let w := mk_world Scenario.fresh_dir Scenario.folders ["c"] [] in
  exists w1,
    fs w1 = fs w /\ stdin w1 = []
    /\ rename_file_if_any_date_metadata_exists 1
         (Scenario.record_of ".\images/a.jpg" "")
         (Some "2021:05:11 12:34:56") (Some "2020:01:02 03:04:05") w
       = rename_file_if_necessary 1 ".\images/a.jpg"
           ".\images/20200102_030405.jpg" w1.
Proof.
  exact (answer_M_or_C_renames_from_the_chosen_date 0
           (Scenario.record_of ".\images/a.jpg" "")
           "2021:05:11 12:34:56" "2020:01:02 03:04:05" ".\images/a.jpg"
           (mk_datetime 2021 5 11 12 34 56) (mk_datetime 2020 1 2 3 4 5)
           ".\images/20210511_123456.jpg" ".\images/20200102_030405.jpg"
           [] "c" []
           (mk_world Scenario.fresh_dir Scenario.folders ["c"] [])
           eq_refl eq_refl eq_refl eq_refl eq_refl
           (List.Forall_nil _) (or_intror eq_refl) eq_refl).
Defined.

Lemma first_photo_of_a_run_is_renamed :
  let file := Scenario.record_of ".\images/a.jpg" "2021:05:11 12:34:56" in
  let w := Scenario.start Scenario.fresh_dir in
  exists w1,
    fs w1 = <[Scenario.stamp := Scenario.photo_a]>
              (delete ".\images/a.jpg" (fs w))
    /\ stdin w1 = stdin w
    /\ valid_files_loop 1 [file] None w
       = valid_files_loop 1 [] (Some Scenario.stamp) w1.
Proof.
  apply (valid_file_with_free_name_is_renamed 0
           (Scenario.record_of ".\images/a.jpg" "2021:05:11 12:34:56") [] None
           ".\images/a.jpg" "2021:05:11 12:34:56" Scenario.stamp
           (mk_datetime 2021 5 11 12 34 56) Scenario.photo_a
           (Scenario.start Scenario.fresh_dir)).
  - reflexivity.
  - reflexivity.
  - vm_compute. reflexivity.
  - vm_compute. reflexivity.
  - discriminate.
  - vm_compute. reflexivity.
  - vm_compute. reflexivity.
  - vm_compute. reflexivity.
Defined.

(** X22: A free target name whose directory does not exist: os.rename fails,
    the call ends with FileNotFoundError and every file is where it was. *)
Theorem missing_target_directory_raises (n : nat) (old new : string)
    (w : world) (b : list Byte.byte)
    (Hfree : fs w !! new = None)
    (Hold : fs w !! old = Some b)
    (Hnodir : directory_exists w (os_path.dirname new) = false) :
  let r := change_filename_until_success (S n) old new w in
  r.2 = Raise FileNotFoundError /\ fs r.1 = fs w
  /\ trace r.1 = (trace w ++ [EvExists new false; EvExists old true;
                              EvRename old new])%list.
Proof.
  set (P := fun r : world * outcome unit =>
              r.2 = Raise FileNotFoundError /\ fs r.1 = fs w
              /\ trace r.1 = (trace w ++ [EvExists new false; EvExists old true;
                                          EvRename old new])%list).
  change (P (change_filename_until_success (S n) old new w)).
  unfold change_filename_until_success. cbn [change_filename_loop].
  change (negb (1 =? 1)) with false. cbv beta iota.
  unfold mbind, M_bind, mret, M_ret, os_path_exists, os_rename, logging_info,
    emit, set_fs. simpl.
  rewrite (exists_false w new Hfree). simpl.
  rewrite (exists_true w old b Hold). simpl. rewrite Hold. simpl.
  unfold directory_exists in *. simpl. rewrite Hnodir. simpl.
  unfold P. simpl. rewrite <- !app_assoc. repeat split.
Qed.

Lemma missing_target_directory_example :
  let w := Scenario.start {[ ".\images/PNG" := Scenario.photo_a ]} in
  let r := change_filename_until_success 1 ".\images/PNG"
             ".\images/20210511_123456.\images/png" w in
  r.2 = Raise FileNotFoundError /\ fs r.1 = fs w
  /\ trace r.1
     = (trace w ++ [EvExists ".\images/20210511_123456.\images/png" false;
                    EvExists ".\images/PNG" true;
                    EvRename ".\images/PNG"
                      ".\images/20210511_123456.\images/png"])%list.
Proof.
  apply (missing_target_directory_raises 0 ".\images/PNG"
           ".\images/20210511_123456.\images/png"
           (Scenario.start {[ ".\images/PNG" := Scenario.photo_a ]})
           Scenario.photo_a).
  - vm_compute. reflexivity.
  - vm_compute. reflexivity.
  - vm_compute. reflexivity.
Defined.
